(** * LTool: the maintenance core of the Linux System Manager

    A shallow embedding of [SystemManager] and [MaintenanceOperations]
    of [LTool.py]: package-manager selection, the command runner, the
    four operation tables and the sequential operation runner.

    Python values are modelled as follows.
    - [str] is a sequence of Unicode code points: [list N].  String
      literals of the source are written [lit "..."]; the two marks of
      the summary, which are not ASCII, are given by their code point.
    - [int] is [Z].
    - [float] is IEEE 754 binary64, taken from the Standard Library's
      [SpecFloat] with [prec = 53] and [emax = 1024].
    - A raised exception is a value of [exception]; a computation is a
      state transformer that either returns or raises.
    - The operating system (process spawning, the clock) is an oracle
      over an abstract world [W].
    - One call is modelled on its own: the calls that the user
      interface starts on other threads are not part of the model. *)

From Stdlib Require Import ZArith Lia String Ascii SpecFloat.
From stdpp Require Import base tactics option list gmap.

Local Open Scope string_scope.
Local Open Scope list_scope.
Local Open Scope stdpp_scope.
Local Open Scope Z_scope.

(** ** Python strings *)

Module Py.

Definition str : Type := list N.

Definition lit (s : string) : str :=
  (λ a, N_of_ascii a) <$> list_ascii_of_string s.

(** [sep.join(l)] *)
Fixpoint join (sep : str) (l : list str) : str :=
  match l with
  | [] => []
  | [x] => x
  | x :: rest => x ++ sep ++ join sep rest
  end.

(** [len(x)] *)
Definition len {A} (l : list A) : Z := Z.of_nat (length l).

(** [x in l] for a list of strings *)
Definition str_in (x : str) (l : list str) : bool := bool_decide (x ∈ l).

(** The exceptions that can reach the modelled code.  [OtherException]
    stands for every other subclass of [Exception] that spawning a
    process may raise ([FileNotFoundError], [PermissionError], ...); it
    carries [str(e)]. *)
Inductive exception :=
  | TimeoutExpired
  | CalledProcessError (returncode : Z) (stdout stderr : str)
  | ZeroDivisionError
  | OtherException (msg : str).

Inductive result (A : Type) :=
  | Returned (a : A)
  | Raised (e : exception).
Arguments Returned {A} a.
Arguments Raised {A} e.

(** ** Floats *)

Definition prec : Z := 53.
Definition emax : Z := 1024.

(** [float(n)] for an [int] *)
Definition float_of_int (n : Z) : spec_float := binary_normalize prec emax n 0 false.

(** [a / b] on two [int]s: true division, which raises on a zero
    divisor.  For operands below [2^53] in magnitude CPython converts
    both exactly and divides in binary64. *)
Definition int_truediv (a b : Z) : result spec_float :=
  if b =? 0 then Raised ZeroDivisionError
  else Returned (SFdiv prec emax (float_of_int a) (float_of_int b)).

(** [x * n] for a [float] and an [int] *)
Definition float_mul_int (x : spec_float) (n : Z) : spec_float :=
  SFmul prec emax x (float_of_int n).

Definition float_lt (x y : spec_float) : bool := SFltb x y.

End Py.

Import Py.

(** ** The operating system *)

(** What the operating system answers when asked to run a command. *)
Inductive os_outcome :=
  | Exited (returncode : Z) (stdout stderr : str)
  | TimedOut
  | LaunchFailed (msg : str).

Record CompletedProcess := {
  returncode : Z;
  stdout : str;
  stderr : str
}.

Inductive level := INFO | ERROR.

(** A [LogEntry]: the dictionary appended to [operations_log]. *)
Record LogEntry := {
  timestamp : str;
  command : str;
  description : str;
  success : bool;
  output : str
}.

(** An operation step: the argument vector and the label shown to the
    user. *)
Abbreviation step := (list str * str)%type (only parsing).

(** What the program did to its surroundings, in order.  The trace is
    ghost state: the program never reads it. *)
Inductive event :=
  | EvProgress (percent : spec_float) (status : str)
  | EvSpawn (argv : list str) (timeout : option Z)
  | EvRan (argv : list str) (ok : bool) (out : str)
  | EvAppend (entry : LogEntry).

(** The world outside the process: the oracle that runs a command in it,
    with the timeout it is given, and the clock
    ([datetime.now().isoformat()]). *)
Class OS (W : Type) := {
  os_exec : list str → option Z → W → os_outcome * W;
  now_isoformat : W → str * W
}.

Section Program.

Context `{os : OS W}.

Record State := {
  world : W;
  operations_log : list LogEntry;
  logger : list (level * str);
  trace : list event
}.

(** ** Computations: state, and [Returned] or [Raised] *)

Definition M (A : Type) : Type := State → result A * State.

#[export] Instance M_ret : MRet M := λ A a st, (Returned a, st).

#[export] Instance M_bind : MBind M := λ A B f m st,
  match m st with
  | (Returned a, st') => f a st'
  | (Raised e, st') => (Raised e, st')
  end.

(** [try: body  except ...: handler]: [handler e] is [None] when no
    [except] clause matches [e], which then propagates. *)
Definition try_except {A} (body : M A) (handler : exception → option (M A)) : M A :=
  λ st,
    match body st with
    | (Returned a, st') => (Returned a, st')
    | (Raised e, st') =>
        match handler e with
        | Some h => h st'
        | None => (Raised e, st')
        end
    end.

Definition lift_result {A} (r : result A) : M A := λ st, (r, st).

Definition emit (ev : event) : M unit := λ st,
  (Returned tt,
   {| world := world st; operations_log := operations_log st;
      logger := logger st; trace := trace st ++ [ev] |}).

Definition logger_log (lv : level) (msg : str) : M unit := λ st,
  (Returned tt,
   {| world := world st; operations_log := operations_log st;
      logger := logger st ++ [(lv, msg)]; trace := trace st |}).

Definition operations_log_append (entry : LogEntry) : M unit := λ st,
  (Returned tt,
   {| world := world st; operations_log := operations_log st ++ [entry];
      logger := logger st; trace := trace st ++ [EvAppend entry] |}).

Definition datetime_now_isoformat : M str := λ st,
  let '(t, w) := now_isoformat (world st) in
  (Returned t,
   {| world := w; operations_log := operations_log st;
      logger := logger st; trace := trace st |}).

(** [subprocess.run(argv, capture_output=True, timeout=timeout, check=check)] *)
Definition subprocess_run (argv : list str) (timeout : option Z) (check : bool)
    : M CompletedProcess := λ st,
  let '(o, w) := os_exec argv timeout (world st) in
  let st' := {| world := w; operations_log := operations_log st;
                logger := logger st;
                trace := trace st ++ [EvSpawn argv timeout] |} in
  match o with
  | Exited rc out err =>
      if check && negb (rc =? 0) then (Raised (CalledProcessError rc out err), st')
      else (Returned {| returncode := rc; stdout := out; stderr := err |}, st')
  | TimedOut => (Raised TimeoutExpired, st')
  | LaunchFailed msg => (Raised (OtherException msg), st')
  end.

(** ** SystemManager *)

Definition supported_distros : gmap str (list str) :=
  <[lit "ubuntu" := [lit "apt"; lit "apt-get"]]>
  (<[lit "debian" := [lit "apt"; lit "apt-get"]]>
  (<[lit "fedora" := [lit "dnf"; lit "yum"]]>
  (<[lit "centos" := [lit "yum"; lit "dnf"]]>
  (<[lit "arch" := [lit "pacman"]]>
  (<[lit "opensuse" := [lit "zypper"]]> ∅))))).

(** [command_exists]: only [CalledProcessError] is caught. *)
Definition command_exists (cmd : str) : M bool :=
  try_except
    (subprocess_run [lit "which"; cmd] None true ;; mret true)
    (λ e, match e with
          | CalledProcessError _ _ _ => Some (mret false)
          | _ => None
          end).

(** The [for pm in ...: if self.command_exists(pm): return pm] loop;
    [None] when the loop ends without returning. *)
Fixpoint first_existing (pms : list str) : M (option str) :=
  match pms with
  | [] => mret None
  | pm :: rest =>
      found ← command_exists pm;
      if found : bool then mret (Some pm) else first_existing rest
  end.

Definition get_package_manager (distro : str) : M str :=
  match supported_distros !! distro with
  | Some pms =>
      r ← first_existing pms;
      match r with
      | Some pm => mret pm
      | None => mret (lit "apt")
      end
  | None => mret (lit "apt")
  end.

(** [run_command]: the body of the [try] and its three [except]
    clauses, tried in order; the last one, [except Exception], takes
    every exception the first two did not.  The last event of the trace
    records what was returned. *)
Definition run_command (argv : list str) (timeout : Z) : M (bool * str) :=
  r ← try_except
        (logger_log INFO (lit "Executing command: " ++ join (lit " ") argv) ;;
         res ← subprocess_run argv (Some timeout) true;
         mret (true, stdout res ++ stderr res))
        (λ e, match e with
              | TimeoutExpired => Some (mret (false, lit "Command timed out"))
              | CalledProcessError _ _ err =>
                  Some (mret (false, lit "Command failed: " ++ err))
              | ZeroDivisionError =>
                  Some (mret (false, lit "Error: " ++ lit "division by zero"))
              | OtherException msg => Some (mret (false, lit "Error: " ++ msg))
              end);
  emit (EvRan argv r.1 r.2) ;;
  mret r.

(** ** MaintenanceOperations *)

Definition cmd (l : list string) : list str := lit <$> l.

(** The operation list built by [update_system]. *)
Definition update_system_operations (package_manager : str) : list step :=
  if str_in package_manager [lit "apt"; lit "apt-get"] then
    [ (cmd ["sudo"; "apt"; "update"], lit "Updating package lists...");
      (cmd ["sudo"; "apt"; "upgrade"; "-y"], lit "Upgrading packages...");
      (cmd ["sudo"; "apt"; "dist-upgrade"; "-y"], lit "Distribution upgrade...");
      (cmd ["sudo"; "apt"; "autoremove"; "-y"], lit "Removing unused packages...");
      (cmd ["sudo"; "apt"; "autoclean"], lit "Cleaning package cache...") ]
  else if str_in package_manager [lit "dnf"; lit "yum"] then
    [ (cmd ["sudo"; "dnf"; "check-update"], lit "Checking for updates...");
      (cmd ["sudo"; "dnf"; "upgrade"; "-y"], lit "Upgrading packages...");
      (cmd ["sudo"; "dnf"; "autoremove"; "-y"], lit "Removing unused packages...");
      (cmd ["sudo"; "dnf"; "clean"; "all"], lit "Cleaning package cache...") ]
  else if bool_decide (package_manager = lit "pacman") then
    [ (cmd ["sudo"; "pacman"; "-Syu"; "--noconfirm"], lit "System update...");
      (cmd ["sudo"; "pacman"; "-Rns"; "--noconfirm"; "$(pacman -Qtdq)"],
       lit "Removing orphans...");
      (cmd ["sudo"; "pacman"; "-Scc"; "--noconfirm"], lit "Cleaning cache...") ]
  else [].

(** The manager-specific part of the list built by [fix_system]. *)
Definition fix_system_specific (package_manager : str) : list step :=
  if str_in package_manager [lit "apt"; lit "apt-get"] then
    [ (cmd ["sudo"; "apt"; "update"; "--fix-missing"], lit "Fixing missing packages...");
      (cmd ["sudo"; "apt"; "-f"; "install"], lit "Fixing broken dependencies...");
      (cmd ["sudo"; "dpkg"; "--configure"; "-a"], lit "Configuring packages...");
      (cmd ["sudo"; "apt"; "check"], lit "Checking package integrity...");
      (cmd ["sudo"; "apt"; "autoremove"; "-y"], lit "Removing broken packages...") ]
  else if str_in package_manager [lit "dnf"; lit "yum"] then
    [ (cmd ["sudo"; "dnf"; "check"], lit "Checking system integrity...");
      (cmd ["sudo"; "dnf"; "distro-sync"], lit "Synchronizing packages...");
      (cmd ["sudo"; "dnf"; "autoremove"; "-y"], lit "Removing problematic packages...") ]
  else if bool_decide (package_manager = lit "pacman") then
    [ (cmd ["sudo"; "pacman"; "-Dk"], lit "Checking dependencies...");
      (cmd ["sudo"; "pacman"; "-Syu"; "--noconfirm"], lit "Synchronizing system...");
      (cmd ["sudo"; "pacman"; "-Rns"; "--noconfirm"; "$(pacman -Qtdq)"],
       lit "Removing orphaned packages...") ]
  else [].

Definition common_fixes : list step :=
  [ (cmd ["sudo"; "journalctl"; "--vacuum-time=7d"], lit "Cleaning system logs...");
    (cmd ["sudo"; "systemctl"; "daemon-reload"], lit "Reloading systemd...");
    (cmd ["sudo"; "ldconfig"], lit "Updating library cache...");
    (cmd ["sudo"; "updatedb"], lit "Updating locate database...") ].

(** The operation list built by [fix_system]:
    [operations.extend(common_fixes)]. *)
Definition fix_system_operations (package_manager : str) : list step :=
  fix_system_specific package_manager ++ common_fixes.

(** The package cleanup part of the list built by [auto_remove_unused]. *)
Definition auto_remove_unused_package_cleanup (package_manager : str) : list step :=
  if str_in package_manager [lit "apt"; lit "apt-get"] then
    [ (cmd ["sudo"; "apt"; "autoremove"; "-y"], lit "Removing unused packages...");
      (cmd ["sudo"; "apt"; "autoclean"], lit "Cleaning package cache...");
      (cmd ["sudo"; "apt"; "clean"], lit "Deep cleaning cache...") ]
  else if str_in package_manager [lit "dnf"; lit "yum"] then
    [ (cmd ["sudo"; "dnf"; "autoremove"; "-y"], lit "Removing unused packages...");
      (cmd ["sudo"; "dnf"; "clean"; "all"], lit "Cleaning package cache...") ]
  else if bool_decide (package_manager = lit "pacman") then
    [ (cmd ["sudo"; "pacman"; "-Rns"; "--noconfirm"; "$(pacman -Qtdq)"],
       lit "Removing orphaned packages...");
      (cmd ["sudo"; "pacman"; "-Scc"; "--noconfirm"], lit "Cleaning package cache...") ]
  else [].

Definition cleanup_operations : list step :=
  [ (cmd ["sudo"; "journalctl"; "--vacuum-time=3d"], lit "Cleaning old logs...");
    (cmd ["sudo"; "find"; "/tmp"; "-type"; "f"; "-atime"; "+7"; "-delete"],
     lit "Cleaning temp files...");
    (cmd ["sudo"; "find"; "/var/tmp"; "-type"; "f"; "-atime"; "+7"; "-delete"],
     lit "Cleaning var temp...");
    (cmd ["sudo"; "find"; "/var/log"; "-name"; "*.log"; "-type"; "f"; "-mtime"; "+30";
          "-delete"],
     lit "Cleaning old logs...");
    (cmd ["sudo"; "find"; "/home"; "-name"; ".cache"; "-type"; "d"; "-exec"; "rm"; "-rf";
          "{}"; "+"],
     lit "Cleaning user caches...") ].

(** The operation list built by [auto_remove_unused]. *)
Definition auto_remove_unused_operations (package_manager : str) : list step :=
  auto_remove_unused_package_cleanup package_manager ++ cleanup_operations.

(** The operation list of [boost_system]. *)
Definition boost_system_operations : list step :=
  [ (cmd ["sudo"; "sysctl"; "-w"; "vm.swappiness=10"], lit "Optimizing swap usage...");
    (cmd ["sudo"; "sysctl"; "-w"; "vm.vfs_cache_pressure=50"],
     lit "Optimizing cache pressure...");
    (cmd ["sudo"; "sysctl"; "-w"; "net.core.rmem_max=16777216"],
     lit "Optimizing network buffers...");
    (cmd ["sudo"; "sysctl"; "-w"; "net.core.wmem_max=16777216"],
     lit "Optimizing network buffers...");
    (cmd ["sudo"; "systemctl"; "disable"; "bluetooth"], lit "Disabling bluetooth service...");
    (cmd ["sudo"; "systemctl"; "mask"; "plymouth-quit-wait.service"],
     lit "Optimizing boot time...");
    (cmd ["sudo"; "systemctl"; "mask"; "plymouth-start.service"],
     lit "Optimizing boot time...");
    (cmd ["sudo"; "prelink"; "-amR"], lit "Optimizing binaries...");
    (cmd ["sudo"; "sync"], lit "Syncing filesystems...");
    (cmd ["sudo"; "sysctl"; "-p"], lit "Applying kernel parameters...") ].

(** A progress callback acts on the world; the call is recorded. *)
Definition callback : Type := spec_float → str → W → W.

Definition call_callback (f : callback) (progress : spec_float) (status : str) : M unit :=
  λ st,
    (Returned tt,
     {| world := f progress status (world st);
        operations_log := operations_log st;
        logger := logger st;
        trace := trace st ++ [EvProgress progress status] |}).

(** U+2713 and U+2717 *)
Definition check_mark : str := [10003%N].
Definition ballot_x : str := [10007%N].
Definition newline : str := [10%N].

(** The body of the [for] loop of [_execute_operations], at index [i]. *)
Definition execute_step (total_ops : Z) (progress_callback : option callback)
    (i : Z) (op : step) (results : list str) : M (list str) :=
  let '(command, description) := op in
  match progress_callback with
  | Some f =>
      q ← lift_result (int_truediv (i + 1) total_ops);
      let progress := float_mul_int q 100 in
      call_callback f progress description
  | None => mret tt
  end ;;
  '(success, output) ← run_command command 300;
  ts ← datetime_now_isoformat;
  let log_entry :=
    {| timestamp := ts;
       command := join (lit " ") command;
       description := description;
       success := success;
       output := if 200 <? len output then take 200 output ++ lit "..." else output |} in
  operations_log_append log_entry ;;
  let results :=
    results ++ [(if success then check_mark else ballot_x) ++ lit " " ++ description] in
  (if negb success
   then logger_log ERROR
          (lit "Operation failed: " ++ description ++ lit " - " ++ output)
   else mret tt) ;;
  mret results.

(** [for i, (command, description) in enumerate(operations)], from
    index [i] on. *)
Fixpoint execute_loop (total_ops : Z) (progress_callback : option callback)
    (i : Z) (operations : list step) (results : list str) : M (list str) :=
  match operations with
  | [] => mret results
  | op :: rest =>
      results' ← execute_step total_ops progress_callback i op results;
      execute_loop total_ops progress_callback (i + 1) rest results'
  end.

Definition _execute_operations (operations : list step)
    (progress_callback : option callback) : M (bool * str) :=
  let total_ops := len operations in
  results ← execute_loop total_ops progress_callback 0 operations [];
  mret (true, join newline results).

Definition update_system (package_manager : str) (progress_callback : option callback)
    : M (bool * str) :=
  _execute_operations (update_system_operations package_manager) progress_callback.

Definition fix_system (package_manager : str) (progress_callback : option callback)
    : M (bool * str) :=
  _execute_operations (fix_system_operations package_manager) progress_callback.

Definition auto_remove_unused (package_manager : str)
    (progress_callback : option callback) : M (bool * str) :=
  _execute_operations (auto_remove_unused_operations package_manager) progress_callback.

Definition boost_system (progress_callback : option callback) : M (bool * str) :=
  _execute_operations boost_system_operations progress_callback.

End Program.

(** ** Reading a trace *)

Definition progress_calls (tr : list event) : list (spec_float * str) :=
  flat_map (λ ev, match ev with EvProgress p s => [(p, s)] | _ => [] end) tr.

Definition spawned (tr : list event) : list (list str * option Z) :=
  flat_map (λ ev, match ev with EvSpawn a t => [(a, t)] | _ => [] end) tr.

Definition ran (tr : list event) : list (list str * bool * str) :=
  flat_map (λ ev, match ev with EvRan a ok out => [(a, ok, out)] | _ => [] end) tr.




(** [k / total * 100] in binary64, for [total] not zero. *)
Definition percentage (k total : Z) : spec_float :=
  float_mul_int (SFdiv prec emax (float_of_int k) (float_of_int total)) 100.

(** The binary64 number 100.0 *)
Definition float_100 : spec_float := S754_finite false 7036874417766400 (-46).

(** What one step leaves behind, given what [run_command] returned
    ([ok], [out]) and what the clock showed ([ts]). *)
Definition step_entry (op : step) (r : bool * str * str) : LogEntry :=
  {| timestamp := r.2;
     command := join (lit " ") op.1;
     description := op.2;
     success := r.1.1;
     output := if 200 <? len r.1.2 then take 200 r.1.2 ++ lit "..." else r.1.2 |}.

Definition step_line (op : step) (r : bool * str * str) : str :=
  (if r.1.1 then check_mark else ballot_x) ++ lit " " ++ op.2.

Definition step_events (with_callback : bool) (total i : Z) (op : step)
    (r : bool * str * str) : list event :=
  (if with_callback then [EvProgress (percentage (i + 1) total) op.2] else [])
  ++ [EvSpawn op.1 (Some 300); EvRan op.1 r.1.1 r.1.2; EvAppend (step_entry op r)].

Fixpoint run_events (with_callback : bool) (total i : Z) (ops : list step)
    (rs : list (bool * str * str)) : list event :=
  match ops, rs with
  | op :: ops', r :: rs' =>
      step_events with_callback total i op r
      ++ run_events with_callback total (i + 1) ops' rs'
  | _, _ => []
  end.

(** What [run_command] makes of the answer of the operating system. *)
Definition returned_pair (o : os_outcome) : bool * str :=
  match o with
  | Exited rc out err =>
      if rc =? 0 then (true, out ++ err) else (false, lit "Command failed: " ++ err)
  | TimedOut => (false, lit "Command timed out")
  | LaunchFailed msg => (false, lit "Error: " ++ msg)
  end.

(** ** Rounding: locations *)

(** [num / den] lies at location [l] of the unit interval that starts
    at [m]. *)
Definition inbetween (m : Z) (l : location) (num den : Z) : Prop :=
  match l with
  | loc_Exact => num = m * den
  | loc_Inexact c =>
      m * den < num < (m + 1) * den ∧ (2 * num ?= (2 * m + 1) * den) = c
  end.

Definition record_ok (mrs : shr_record) (num den : Z) : Prop :=
  0 ≤ shr_m mrs ∧ inbetween (shr_m mrs) (loc_of_shr_record mrs) num den.

(** ** Example environments *)

(** A host where [which] is not installed: spawning it fails, every
    other command succeeds silently. *)
Definition no_which_exec (argv : list str) (timeout : option Z) (w : nat)
    : os_outcome * nat :=
  (match argv with
   | prog :: _ =>
       if bool_decide (prog = lit "which")
       then LaunchFailed (lit "[Errno 2] No such file or directory: 'which'")
       else Exited 0 [] []
   | [] => LaunchFailed (lit "list index out of range")
   end, S w).

Definition no_which : OS nat :=
  {| os_exec := no_which_exec; now_isoformat := λ w, (lit "2025-01-01T00:00:00", w) |}.

(** A host with [which] and [pacman] only, where [journalctl] exits
    with status 1, [find] times out and [ldconfig] cannot be started. *)
Definition sample_exec (argv : list str) (timeout : option Z) (w : nat)
    : os_outcome * nat :=
  (match argv with
   | prog :: args =>
       if bool_decide (prog = lit "which") then
         if bool_decide (args = [lit "pacman"])
         then Exited 0 (lit "/usr/bin/pacman") [] else Exited 1 [] []
       else if bool_decide (args !! 0%nat = Some (lit "journalctl"))
       then Exited 1 [] (lit "No journal files")
       else if bool_decide (args !! 0%nat = Some (lit "find")) then TimedOut
       else if bool_decide (args !! 0%nat = Some (lit "ldconfig"))
       then LaunchFailed (lit "[Errno 2] No such file or directory: 'sudo'")
       else Exited 0 (lit "ok") (lit "warning")
   | [] => LaunchFailed (lit "list index out of range")
   end, S w).

Definition sample : OS nat :=
  {| os_exec := sample_exec; now_isoformat := λ w, (lit "2025-01-01T00:00:00", w) |}.

Definition initial_state {W} (w : W) : State :=
  {| world := w; operations_log := []; logger := []; trace := [] |}.

Definition idle_callback : callback (W := nat) := λ _ _ w, w.

(** * The rest of the program *)

(** ** More of the host *)

(** What else the process asks of its host and of the Python runtime:
    [os.path.exists], [open(path).read()] (the text, or [str(e)] of the
    exception it raises), [subprocess.getoutput] (likewise),
    [datetime.now().strftime("%H:%M:%S")] and [str.lower]. *)
Class Host (W : Type) := {
  path_exists : str → W → bool;
  read_text : str → W → str + str;
  getoutput : str → W → (str + str) * W;
  now_hms : W → str * W;
  str_lower : str → str
}.

(** [needle in hay] for two strings *)
Fixpoint str_contains (needle hay : str) : bool :=
  bool_decide (needle `prefix_of` hay)
  || match hay with
     | [] => false
     | _ :: rest => str_contains needle rest
     end.

(** [needle] occurs in [hay] as a contiguous piece. *)
Definition occurs_in (needle hay : str) : Prop :=
  ∃ before after, hay = before ++ needle ++ after.

(** [str.lower] on ASCII text *)
Definition ascii_lower (s : str) : str :=
  (λ c, if (65 <=? c)%N && (c <=? 90)%N then (c + 32)%N else c) <$> s.

(** [str(e)].  The two [subprocess] exceptions print the command line
    in Python; the model does not carry it, and no handler that prints
    an exception can receive them. *)
Definition exception_text (e : exception) : str :=
  match e with
  | OtherException msg => msg
  | ZeroDivisionError => lit "division by zero"
  | TimeoutExpired => lit "Command timed out"
  | CalledProcessError rc _ _ => lit "Command returned non-zero exit status"
  end.

Record SystemInfo := {
  os_name : str;
  kernel_version : str;
  uptime : str;
  memory_usage : str;
  disk_usage : str;
  cpu_usage : str
}.

Record SystemManager := {
  distro : str;
  package_manager : str
}.

(** The quotation mark, U+0022 *)
Definition dquote : str := [34%N].

(** The distribution names, in the order [detect_distro] looks for
    them. *)
Definition release_names : list string :=
  ["ubuntu"; "debian"; "fedora"; "centos"; "arch"; "opensuse"].

Section SystemManager.

Context `{os : OS W} `{host : Host W}.

Definition os_path_exists (path : str) : M bool :=
  λ st, (Returned (path_exists path (world st)), st).

(** [with open(path, 'r') as f: f.read()] *)
Definition open_read (path : str) : M str :=
  λ st,
    (match read_text path (world st) with
     | inl content => Returned content
     | inr msg => Raised (OtherException msg)
     end, st).

Definition subprocess_getoutput (cmd : str) : M str :=
  λ st,
    let '(r, w) := getoutput cmd (world st) in
    (match r with
     | inl out => Returned out
     | inr msg => Raised (OtherException msg)
     end,
     {| world := w; operations_log := operations_log st;
        logger := logger st; trace := trace st |}).

(** The [if]/[elif] chain of [detect_distro] on the lowered content;
    [None] when no branch returns. *)
Definition match_release (content : str) : option str :=
  if str_contains (lit "ubuntu") content then Some (lit "ubuntu")
  else if str_contains (lit "debian") content then Some (lit "debian")
  else if str_contains (lit "fedora") content then Some (lit "fedora")
  else if str_contains (lit "centos") content then Some (lit "centos")
  else if str_contains (lit "arch") content then Some (lit "arch")
  else if str_contains (lit "opensuse") content then Some (lit "opensuse")
  else None.

(** The fallback of [detect_distro]: the marker files. *)
Definition detect_by_marker : M str :=
  debian ← os_path_exists (lit "/etc/debian_version");
  if debian : bool then mret (lit "debian")
  else
    redhat ← os_path_exists (lit "/etc/redhat-release");
    if redhat : bool then mret (lit "fedora")
    else
      arch ← os_path_exists (lit "/etc/arch-release");
      if arch : bool then mret (lit "arch")
      else mret (lit "unknown").

Definition detect_distro : M str :=
  try_except
    (present ← os_path_exists (lit "/etc/os-release");
     found ← (if present : bool
              then content ← open_read (lit "/etc/os-release");
                   mret (match_release (str_lower content))
              else mret None);
     match found with
     | Some name => mret name
     | None => detect_by_marker
     end)
    (λ e, Some (logger_log ERROR
                  (lit "Error detecting distribution: " ++ exception_text e) ;;
                mret (lit "unknown"))).

(** The candidates that get probed: each one up to and including the
    first that is installed. *)
Fixpoint probed (installed : str → bool) (pms : list str) : list str :=
  match pms with
  | [] => []
  | pm :: rest => pm :: if installed pm then [] else probed installed rest
  end.

(** The records one step writes to the process log: the command line,
    and for a failed step the description with the whole output. *)
Definition step_records (op : step) (r : bool * str * str) : list (level * str) :=
  (INFO, lit "Executing command: " ++ join (lit " ") op.1)
  :: if r.1.1 then []
     else [(ERROR, lit "Operation failed: " ++ op.2 ++ lit " - " ++ r.1.2)].

(** What the marker files say about a machine. *)
Definition marker_name (w : W) : str :=
  if path_exists (lit "/etc/debian_version") w then lit "debian"
  else if path_exists (lit "/etc/redhat-release") w then lit "fedora"
  else if path_exists (lit "/etc/arch-release") w then lit "arch"
  else lit "unknown".

(** [SystemManager.__init__] *)
Definition SystemManager_init : M SystemManager :=
  distro ← detect_distro;
  package_manager ← get_package_manager distro;
  logger_log INFO (lit "Detected distribution: " ++ distro) ;;
  mret {| distro := distro; package_manager := package_manager |}.

Definition unknown_info : SystemInfo :=
  {| os_name := lit "Unknown"; kernel_version := lit "Unknown";
     uptime := lit "Unknown"; memory_usage := lit "Unknown";
     disk_usage := lit "Unknown"; cpu_usage := lit "Unknown" |}.

Definition get_system_info : M SystemInfo :=
  try_except
    (os_name ← subprocess_getoutput
       (lit "lsb_release -d 2>/dev/null | cut -f2 || echo 'Unknown'");
     kernel_version ← subprocess_getoutput (lit "uname -r");
     uptime ← subprocess_getoutput (lit "uptime -p 2>/dev/null || uptime");
     memory_usage ← subprocess_getoutput
       (lit "free -h | grep 'Mem:' | awk '{print $3" ++ dquote ++ lit "/" ++ dquote
        ++ lit "$2}'");
     disk_usage ← subprocess_getoutput
       (lit "df -h / | tail -1 | awk '{print $3" ++ dquote ++ lit "/" ++ dquote
        ++ lit "$2" ++ dquote ++ lit " (" ++ dquote ++ lit "$5" ++ dquote
        ++ lit " used)" ++ dquote ++ lit "}'");
     cpu_usage ← subprocess_getoutput
       (lit "top -bn1 | grep 'Cpu(s)' | awk '{print $2}' | sed 's/%us,//' || echo 'N/A'");
     mret {| os_name := os_name; kernel_version := kernel_version;
             uptime := uptime; memory_usage := memory_usage;
             disk_usage := disk_usage; cpu_usage := cpu_usage |})
    (λ e, Some (logger_log ERROR
                  (lit "Error getting system info: " ++ exception_text e) ;;
                mret unknown_info)).

End SystemManager.

(** ** SystemManagerGUI *)

(** The widgets the program reads and writes, on top of the machine
    [H] it runs on: the variable of the progress bar, the text of the
    status label, the content of the log pane, the texts of the
    information labels by key, and how many background refreshes of the
    system information have been started. *)
Record Gui (H : Type) := {
  machine : H;
  progress_var : spec_float;
  status_label : str;
  log_text : str;
  info_labels : gmap str str;
  refresh_threads : nat
}.
Arguments machine {H} _.
Arguments progress_var {H} _.
Arguments status_label {H} _.
Arguments log_text {H} _.
Arguments info_labels {H} _.
Arguments refresh_threads {H} _.

Definition set_machine {H : Type} (h : H) (g : Gui H) : Gui H :=
  {| machine := h; progress_var := progress_var g; status_label := status_label g;
     log_text := log_text g; info_labels := info_labels g;
     refresh_threads := refresh_threads g |}.

(** [self.progress_var.set(x)] *)
Definition progress_var_set {H : Type} (x : spec_float) (g : Gui H) : Gui H :=
  {| machine := machine g; progress_var := x; status_label := status_label g;
     log_text := log_text g; info_labels := info_labels g;
     refresh_threads := refresh_threads g |}.

(** [self.status_label.config(text=s)] *)
Definition status_label_config {H : Type} (s : str) (g : Gui H) : Gui H :=
  {| machine := machine g; progress_var := progress_var g; status_label := s;
     log_text := log_text g; info_labels := info_labels g;
     refresh_threads := refresh_threads g |}.

(** [self.log_text.insert(tk.END, s)] *)
Definition log_text_insert_end {H : Type} (s : str) (g : Gui H) : Gui H :=
  {| machine := machine g; progress_var := progress_var g;
     status_label := status_label g; log_text := log_text g ++ s;
     info_labels := info_labels g; refresh_threads := refresh_threads g |}.

Definition info_labels_set {H : Type} (labels : gmap str str) (g : Gui H) : Gui H :=
  {| machine := machine g; progress_var := progress_var g;
     status_label := status_label g; log_text := log_text g;
     info_labels := labels; refresh_threads := refresh_threads g |}.

(** [threading.Thread(target=update_info, daemon=True).start()]: the
    thread is counted, its body is [update_info] below. *)
Definition start_refresh_thread {H : Type} (g : Gui H) : Gui H :=
  {| machine := machine g; progress_var := progress_var g;
     status_label := status_label g; log_text := log_text g;
     info_labels := info_labels g; refresh_threads := S (refresh_threads g) |}.

(** The keys of [info_labels], as [setup_system_info] creates them,
    each label showing "Loading...". *)
Definition info_keys : list string :=
  ["os_name"; "kernel_version"; "uptime"; "memory_usage"; "disk_usage"; "cpu_usage"].

Definition setup_system_info_labels : gmap str str :=
  foldl (λ labels key, <[lit key := lit "Loading..."]> labels) ∅ info_keys.

Section SystemManagerGUI.

Context `{os : OS H} `{host : Host H}.

(** The window runs on the machine: the oracles of the machine, seen
    from the window. *)
#[export] Instance gui_os : OS (Gui H) := {|
  os_exec argv timeout g :=
    let '(o, h) := os_exec argv timeout (machine g) in (o, set_machine h g);
  now_isoformat g :=
    let '(t, h) := now_isoformat (machine g) in (t, set_machine h g)
|}.

#[export] Instance gui_host : Host (Gui H) := {|
  path_exists path g := path_exists path (machine g);
  read_text path g := read_text path (machine g);
  getoutput cmd g := let '(r, h) := getoutput cmd (machine g) in (r, set_machine h g);
  now_hms g := let '(t, h) := now_hms (machine g) in (t, set_machine h g);
  str_lower := str_lower
|}.

Definition set_world (g : Gui H) (st : @State (Gui H)) : @State (Gui H) :=
  {| world := g; operations_log := operations_log st;
     logger := logger st; trace := trace st |}.

Definition modify_gui (f : Gui H → Gui H) : M unit := λ st,
  (Returned tt,
   {| world := f (world st); operations_log := operations_log st;
      logger := logger st; trace := trace st |}).

Definition datetime_now_hms : M str := λ st,
  let '(t, g) := now_hms (world st) in
  (Returned t,
   {| world := g; operations_log := operations_log st;
      logger := logger st; trace := trace st |}).

(** [update_progress]: the callback handed to the operations. *)
Definition update_progress : callback (W := Gui H) :=
  λ progress status g, status_label_config status (progress_var_set progress g).

Definition log_message (message : str) : M unit :=
  timestamp ← datetime_now_hms;
  modify_gui (log_text_insert_end
                (lit "[" ++ timestamp ++ lit "] " ++ message ++ newline)).

(** [clear_log] *)
Definition clear_log : M unit :=
  modify_gui (λ g, {| machine := machine g; progress_var := progress_var g;
                      status_label := status_label g; log_text := [];
                      info_labels := info_labels g;
                      refresh_threads := refresh_threads g |}).

(** [self.info_labels[key].config(text=text)]; a missing key raises
    [KeyError]. *)
Definition info_label_config (key text : str) : M unit := λ st,
  match info_labels (world st) !! key with
  | Some _ =>
      modify_gui (λ g, info_labels_set (<[key := text]> (info_labels g)) g) st
  | None => (Raised (OtherException (lit "'" ++ key ++ lit "'")), st)
  end.

(** [update_info], the body of the thread that [update_system_info]
    starts. *)
Definition update_info : M unit :=
  info ← get_system_info;
  info_label_config (lit "os_name") (os_name info) ;;
  info_label_config (lit "kernel_version") (kernel_version info) ;;
  info_label_config (lit "uptime") (uptime info) ;;
  info_label_config (lit "memory_usage") (memory_usage info) ;;
  info_label_config (lit "disk_usage") (disk_usage info) ;;
  info_label_config (lit "cpu_usage") (cpu_usage info ++ lit "%").

Definition update_system_info : M unit := modify_gui start_refresh_thread.

(** [worker], the body of the thread that [run_operation] starts. *)
Definition run_operation_worker
    (operation_func : option (callback (W := Gui H)) → M (bool * str))
    (operation_name : str) : M unit :=
  try_except
    (log_message (lit "Starting " ++ operation_name ++ lit "...") ;;
     modify_gui (progress_var_set (float_of_int 0)) ;;
     '(success, result) ← operation_func (Some update_progress);
     (if success : bool
      then log_message (check_mark ++ lit " " ++ operation_name
                        ++ lit " completed successfully") ;;
           log_message result
      else log_message (ballot_x ++ lit " " ++ operation_name ++ lit " failed") ;;
           log_message result) ;;
     modify_gui (progress_var_set (float_of_int 100)) ;;
     modify_gui (status_label_config (operation_name ++ lit " completed")) ;;
     update_system_info)
    (λ e, Some (log_message (ballot_x ++ lit " Error during " ++ operation_name
                             ++ lit ": " ++ exception_text e) ;;
                logger_log ERROR (lit "Error in " ++ operation_name ++ lit ": "
                                  ++ exception_text e))).

End SystemManagerGUI.

(** ** More example hosts *)

(** The text of an [/etc/os-release] as Ubuntu ships it. *)
Definition ubuntu_os_release : str :=
  lit "NAME=" ++ dquote ++ lit "Ubuntu" ++ dquote ++ newline
  ++ lit "ID=ubuntu" ++ newline ++ lit "ID_LIKE=debian" ++ newline.

(** An Ubuntu machine. *)
Definition ubuntu_host : Host nat := {|
  path_exists path w :=
    bool_decide (path ∈ [lit "/etc/os-release"; lit "/etc/debian_version"]);
  read_text path w :=
    if bool_decide (path = lit "/etc/os-release") then inl ubuntu_os_release
    else inr (lit "[Errno 2] No such file or directory");
  getoutput cmd w := (inl (lit "ok"), S w);
  now_hms w := (lit "12:00:00", w);
  str_lower := ascii_lower
|}.

(** A Debian machine where [/etc/os-release] cannot be read and no
    shell can be started. *)
Definition locked_host : Host nat := {|
  path_exists path w :=
    bool_decide (path ∈ [lit "/etc/os-release"; lit "/etc/debian_version"]);
  read_text path w := inr (lit "[Errno 13] Permission denied: '/etc/os-release'");
  getoutput cmd w :=
    if bool_decide (cmd = lit "uname -r")
    then (inr (lit "[Errno 12] Cannot allocate memory"), S w)
    else (inl (lit "ok"), S w);
  now_hms w := (lit "12:00:00", w);
  str_lower := ascii_lower
|}.

(** A machine with none of the files [detect_distro] looks at. *)
Definition bare_host : Host nat := {|
  path_exists path w := false;
  read_text path w := inr (lit "[Errno 2] No such file or directory");
  getoutput cmd w := (inl (lit "ok"), S w);
  now_hms w := (lit "12:00:00", w);
  str_lower := ascii_lower
|}.

(** A machine that has [/etc/redhat-release] and no [/etc/os-release]. *)
Definition redhat_host : Host nat := {|
  path_exists path w := bool_decide (path = lit "/etc/redhat-release");
  read_text path w := inr (lit "[Errno 2] No such file or directory");
  getoutput cmd w := (inl (lit "ok"), S w);
  now_hms w := (lit "12:00:00", w);
  str_lower := ascii_lower
|}.

(** What [which] finds on the sample host. *)
Definition sample_installed (c : str) : bool := bool_decide (c = lit "pacman").

Definition initial_gui {H : Type} (h : H) : Gui H :=
  {| machine := h; progress_var := float_of_int 0; status_label := lit "Ready";
     log_text := []; info_labels := setup_system_info_labels; refresh_threads := 0 |}.

(** * Binary64 arithmetic

    What the runner needs to know about [SFdiv] and [SFmul]: on normal
    numbers away from the ends of the exponent range each rounds to
    nearest, so the result is within half a unit in the last place of
    the exact quotient or product. *)

Ltac pow_positive := apply Z.pow_pos_nonneg; lia.

(** ** Binary digits *)

Lemma digits2_pos_bounds p :
  2 ^ (Z.pos (digits2_pos p) - 1) ≤ Z.pos p < 2 ^ Z.pos (digits2_pos p).
Proof.
  induction p as [p IH|p IH|]; simpl digits2_pos.
  - rewrite Pos2Z.inj_succ.
    replace (Z.succ (Z.pos (digits2_pos p)) - 1) with (Z.succ (Z.pos (digits2_pos p) - 1)) by lia.
    rewrite !Z.pow_succ_r by lia. lia.
  - rewrite Pos2Z.inj_succ.
    replace (Z.succ (Z.pos (digits2_pos p)) - 1) with (Z.succ (Z.pos (digits2_pos p) - 1)) by lia.
    rewrite !Z.pow_succ_r by lia. lia.
  - simpl. lia.
Qed.

Lemma digits_unique x d d' :
  2 ^ (d - 1) ≤ x < 2 ^ d → 2 ^ (d' - 1) ≤ x < 2 ^ d' → 0 < d → 0 < d' → d = d'.
Proof.
  intros [H1 H2] [H3 H4] Hd Hd'.
  destruct (Z.lt_trichotomy d d') as [Hlt|[Heq|Hgt]]; [|done|].
  - assert (2 ^ d ≤ 2 ^ (d' - 1)) by (apply Z.pow_le_mono_r; lia). lia.
  - assert (2 ^ d' ≤ 2 ^ (d - 1)) by (apply Z.pow_le_mono_r; lia). lia.
Qed.

Lemma Zdigits2_eq m d :
  0 < d → 2 ^ (d - 1) ≤ m < 2 ^ d → Zdigits2 m = d.
Proof.
  intros Hd Hm.
  assert (0 < m) as Hpos by (assert (0 < 2 ^ (d - 1)) by pow_positive; lia).
  destruct m as [|p|p]; try lia. simpl.
  apply (digits_unique (Z.pos p)); [apply digits2_pos_bounds|done|lia|done].
Qed.

(** ** Locations *)

Lemma loc_of_record_of_loc m l : loc_of_shr_record (shr_record_of_loc m l) = l.
Proof. by destruct l as [|[]]. Qed.

Lemma shr_m_record_of_loc m l : shr_m (shr_record_of_loc m l) = m.
Proof. by destruct l as [|[]]. Qed.

Lemma shr_1_ok mrs num den :
  0 < den → record_ok mrs num den →
  record_ok (shr_1 mrs) num (2 * den) ∧ shr_m (shr_1 mrs) = shr_m mrs / 2.
Proof.
  intros Hden [Hm Hin]. destruct mrs as [m r s]. simpl in Hm, Hin.
  assert (m = 2 * (m / 2) + m mod 2) as Hdiv by (apply Z.div_mod; lia).
  assert (0 ≤ m mod 2 < 2) as Hmod by (apply Z.mod_pos_bound; lia).
  assert (0 ≤ m / 2) as Hq by (apply Z.div_pos; lia).
  set (q := m / 2) in *. set (b := m mod 2) in *.
  assert (shr_1 {| shr_m := m; shr_r := r; shr_s := s |}
          = {| shr_m := q; shr_r := bool_decide (b = 1); shr_s := r || s |}) as ->.
  { destruct m as [|[p|p|]|p]; try lia; simpl.
    - assert (q = 0 ∧ b = 0) as [-> ->] by lia. done.
    - assert (q = Z.pos p ∧ b = 1) as [-> ->] by lia. done.
    - assert (q = Z.pos p ∧ b = 0) as [-> ->] by lia. done.
    - assert (q = 0 ∧ b = 1) as [-> ->] by lia. done. }
  split; [|done]. split; [done|]. simpl.
  assert (m * den = 2 * (q * den) + b * den) as Hmd by lia.
  assert (b = 0 ∨ b = 1) as [Hb|Hb] by lia; rewrite Hb in *;
    destruct r, s; simpl in *;
    rewrite ?bool_decide_true, ?bool_decide_false by lia; simpl;
    repeat match goal with
           | H : _ ∧ _ |- _ => destruct H
           | H : (_ ?= _) = Lt |- _ => apply -> Z.compare_lt_iff in H
           | H : (_ ?= _) = Gt |- _ => apply -> Z.compare_gt_iff in H
           | H : (_ ?= _) = Eq |- _ => apply -> Z.compare_eq_iff in H
           end;
    repeat split;
    rewrite ?Z.compare_lt_iff, ?Z.compare_gt_iff, ?Z.compare_eq_iff; lia.
Qed.

Lemma iter_shr_1_ok p : ∀ mrs num den,
  0 < den → record_ok mrs num den →
  record_ok (SpecFloat.iter_pos shr_1 p mrs) num (2 ^ Z.pos p * den)
  ∧ shr_m (SpecFloat.iter_pos shr_1 p mrs) = shr_m mrs / 2 ^ Z.pos p.
Proof.
  induction p as [p IH|p IH|]; intros mrs num den Hden Hok; simpl SpecFloat.iter_pos.
  - destruct (shr_1_ok mrs num den Hden Hok) as [Hok1 Hm1].
    assert (0 < 2 ^ Z.pos p) as Hpow by pow_positive.
    destruct (IH (shr_1 mrs) num (2 * den) ltac:(lia) Hok1) as [Hok2 Hm2].
    destruct (IH _ num (2 ^ Z.pos p * (2 * den)) ltac:(lia) Hok2) as [Hok3 Hm3].
    replace (Z.pos p~1) with (Z.pos p + Z.pos p + 1) by lia.
    rewrite !Z.pow_add_r, Z.pow_1_r by lia.
    split.
    + by replace (2 ^ Z.pos p * 2 ^ Z.pos p * 2 * den)
        with (2 ^ Z.pos p * (2 ^ Z.pos p * (2 * den))) by lia.
    + rewrite Hm3, Hm2, Hm1, !Z.div_div by lia. f_equal. lia.
  - assert (0 < 2 ^ Z.pos p) as Hpow by pow_positive.
    destruct (IH mrs num den Hden Hok) as [Hok2 Hm2].
    destruct (IH _ num (2 ^ Z.pos p * den) ltac:(lia) Hok2) as [Hok3 Hm3].
    replace (Z.pos p~0) with (Z.pos p + Z.pos p) by lia.
    rewrite !Z.pow_add_r by lia.
    split.
    + by replace (2 ^ Z.pos p * 2 ^ Z.pos p * den)
        with (2 ^ Z.pos p * (2 ^ Z.pos p * den)) by lia.
    + rewrite Hm3, Hm2, !Z.div_div by lia. done.
  - destruct (shr_1_ok mrs num den Hden Hok) as [Hok1 Hm1].
    change (2 ^ 1) with 2. done.
Qed.

(** Shifting right by [n] binary digits. *)
Lemma shr_ok mrs e n num den :
  0 ≤ n → 0 < den → record_ok mrs num den →
  record_ok (shr mrs e n).1 num (2 ^ n * den)
  ∧ shr_m (shr mrs e n).1 = shr_m mrs / 2 ^ n
  ∧ (shr mrs e n).2 = e + n.
Proof.
  intros Hn Hden Hok. destruct n as [|p|p]; try lia; simpl.
  - rewrite Z.div_1_r, Z.add_0_r. split; [|done].
    by destruct den.
  - destruct (iter_shr_1_ok p mrs num den Hden Hok) as [H1 H2]. done.
Qed.

Lemma round_nearest_even_ok m l num den :
  0 < den → inbetween m l num den →
  (round_nearest_even m l = m ∨ round_nearest_even m l = m + 1)
  ∧ - den ≤ 2 * (round_nearest_even m l * den) - 2 * num ≤ den.
Proof.
  intros Hden Hin. destruct l as [|[]]; cbn [inbetween round_nearest_even] in *.
  - split; [by left|]. lia.
  - destruct Hin as [[H1 H2] H3]. apply -> Z.compare_eq_iff in H3.
    destruct (Z.even m); [split; [by left|]; lia | split; [by right|]; lia].
  - destruct Hin as [[H1 H2] H3]. apply -> Z.compare_lt_iff in H3.
    split; [by left|]. lia.
  - destruct Hin as [[H1 H2] H3]. apply -> Z.compare_gt_iff in H3.
    split; [by right|]. lia.
Qed.

(** Rounding to nearest, ties to even, of [num / den * 2 ^ ex], given
    by its integer part [mx] of [d >= 53] digits and its location: the
    result is a normal number within half a unit in the last place. *)
Lemma binary_round_aux_ok mx ex lx num den d :
  0 < den → inbetween mx lx num den →
  53 ≤ d → 2 ^ (d - 1) ≤ mx < 2 ^ d →
  -1074 ≤ ex + d - 53 → ex + d - 52 ≤ 971 →
  ∃ M k,
    binary_round_aux prec emax false mx ex lx = S754_finite false (Z.to_pos M) (ex + k)
    ∧ 2 ^ 52 ≤ M < 2 ^ 53
    ∧ (k = d - 53 ∨ k = d - 52)
    ∧ - (2 ^ k * den) ≤ 2 * (M * 2 ^ k * den) - 2 * num ≤ 2 ^ k * den.
Proof.
  intros Hden Hin Hd Hmx Hlo Hhi.
  assert (0 < 2 ^ (d - 1)) as Hpow1 by pow_positive.
  set (n := d - 53).
  assert (0 < 2 ^ n) as Hpown by pow_positive.
  assert (2 ^ (d - 1) = 2 ^ 52 * 2 ^ n) as Hd1
    by (rewrite <- Z.pow_add_r by lia; f_equal; lia).
  assert (2 ^ d = 2 ^ 53 * 2 ^ n) as Hd2
    by (rewrite <- Z.pow_add_r by lia; f_equal; lia).
  unfold binary_round_aux, shr_fexp.
  rewrite (Zdigits2_eq mx d) by lia.
  replace (fexp prec emax (d + ex) - ex) with n
    by (unfold fexp, emin, prec, emax; lia).
  destruct (shr_ok (shr_record_of_loc mx lx) ex n num den) as (Hok1 & Hm1 & He1);
    [lia | done | |].
  { split; [rewrite shr_m_record_of_loc; lia|].
    by rewrite shr_m_record_of_loc, loc_of_record_of_loc. }
  destruct (shr (shr_record_of_loc mx lx) ex n) as [mrs1 e1]. simpl in Hok1, Hm1, He1.
  rewrite shr_m_record_of_loc in Hm1.
  set (m1 := shr_m mrs1) in *.
  assert (2 ^ 52 ≤ m1 < 2 ^ 53) as Hm1b.
  { rewrite Hm1. split.
    - apply Z.div_le_lower_bound; lia.
    - apply Z.div_lt_upper_bound; lia. }
  destruct Hok1 as [_ Hin1].
  destruct (round_nearest_even_ok m1 (loc_of_shr_record mrs1) num (2 ^ n * den))
    as [Hm2 Herr]; [lia | done |].
  set (m2 := round_nearest_even m1 (loc_of_shr_record mrs1)) in *.
  destruct (Z_lt_le_dec m2 (2 ^ 53)) as [Hlt|Hge].
  - rewrite (Zdigits2_eq m2 53) by lia.
    replace (fexp prec emax (53 + e1) - e1) with 0
      by (unfold fexp, emin, prec, emax; lia).
    simpl shr. simpl shr_m.
    destruct m2 as [|p|p] eqn:Hp; try lia.
    replace (e1 <=? emax - prec) with true
      by (symmetry; apply Z.leb_le; unfold emax, prec; lia).
    exists (Z.pos p), n. subst e1. split; [done|].
    split; [lia|]. split; [by left|].
    rewrite <- Z.mul_assoc. lia.
  - assert (m2 = 2 ^ 53) as Hm2eq by lia.
    rewrite Hm2eq.
    rewrite (Zdigits2_eq (2 ^ 53) 54) by lia.
    replace (fexp prec emax (54 + e1) - e1) with 1
      by (unfold fexp, emin, prec, emax; lia).
    assert (shr (shr_record_of_loc (2 ^ 53) loc_Exact) e1 1
            = ({| shr_m := 4503599627370496; shr_r := false; shr_s := false |}, e1 + 1))
      as -> by (unfold shr; f_equal).
    cbn [shr_m].
    replace (e1 + 1 <=? emax - prec) with true
      by (symmetry; apply Z.leb_le; unfold emax, prec; lia).
    exists (2 ^ 52), (n + 1). subst e1. split; [f_equal; first [reflexivity|lia]|].
    split; [lia|]. split; [right; lia|].
    rewrite Z.pow_add_r, Z.pow_1_r by lia.
    rewrite Hm2eq in Herr.
    replace (2 ^ 52 * (2 ^ n * 2) * den) with (2 ^ 53 * (2 ^ n * den)) by ring.
    lia.
Qed.

(** A number that is representable is not changed by rounding. *)
Lemma binary_round_aux_exact mx ex :
  2 ^ 52 ≤ mx < 2 ^ 53 → -1074 ≤ ex ≤ 971 →
  binary_round_aux prec emax false mx ex loc_Exact = S754_finite false (Z.to_pos mx) ex.
Proof.
  intros Hmx Hex. unfold binary_round_aux, shr_fexp.
  rewrite (Zdigits2_eq mx 53) by lia.
  replace (fexp prec emax (53 + ex) - ex) with 0
    by (unfold fexp, emin, prec, emax; lia).
  cbn [shr shr_record_of_loc shr_m loc_of_shr_record round_nearest_even].
  rewrite (Zdigits2_eq mx 53) by lia.
  replace (fexp prec emax (53 + ex) - ex) with 0
    by (unfold fexp, emin, prec, emax; lia).
  cbn [shr shr_record_of_loc shr_m].
  destruct mx as [|p|p]; try lia.
  replace (ex <=? emax - prec) with true
    by (symmetry; apply Z.leb_le; unfold emax, prec; lia).
  done.
Qed.

(** ** Conversion from integers *)

Lemma iter_xO_mul p k : Z.pos (Pos.iter xO p k) = Z.pos p * 2 ^ Z.pos k.
Proof.
  change (Pos.iter xO p k) with (shift_pos k p).
  rewrite shift_pos_correct, Zpower_pos_nat, Zpower_nat_Z, positive_nat_Z. lia.
Qed.

Lemma float_of_int_normal n :
  1 ≤ n < 2 ^ 53 →
  ∃ s, 0 ≤ s ≤ 52
       ∧ 2 ^ 52 ≤ n * 2 ^ s < 2 ^ 53
       ∧ float_of_int n = S754_finite false (Z.to_pos (n * 2 ^ s)) (- s).
Proof.
  intros Hn. destruct n as [|p|p]; try lia.
  unfold float_of_int, binary_normalize, binary_round.
  pose proof (digits2_pos_bounds p) as Hd.
  set (d := Z.pos (digits2_pos p)) in *.
  assert (d ≤ 53) as Hd53.
  { destruct (Z_le_gt_dec d 53) as [|Hgt]; [done|].
    assert (2 ^ 53 ≤ 2 ^ (d - 1)) by (apply Z.pow_le_mono_r; lia). lia. }
  assert (0 < d) as Hdpos by (unfold d; lia).
  exists (53 - d).
  assert (2 ^ 52 = 2 ^ (d - 1) * 2 ^ (53 - d)) as H52
    by (rewrite <- Z.pow_add_r by lia; f_equal; lia).
  assert (2 ^ 53 = 2 ^ d * 2 ^ (53 - d)) as H53
    by (rewrite <- Z.pow_add_r by lia; f_equal; lia).
  assert (0 < 2 ^ (53 - d)) as Hpow by pow_positive.
  assert (2 ^ 52 ≤ Z.pos p * 2 ^ (53 - d) < 2 ^ 53) as Hb by nia.
  split; [lia|]. split; [done|].
  replace (fexp prec emax (d + 0)) with (d - 53)
    by (unfold fexp, emin, prec, emax; lia).
  unfold shl_align.
  destruct (d - 53 - 0) as [|k|k] eqn:Hk; try lia.
  - replace (53 - d) with 0 in * by lia.
    rewrite Z.mul_1_r in *.
    by rewrite binary_round_aux_exact by lia.
  - assert (53 - d = Z.pos k) as Hk' by lia.
    rewrite binary_round_aux_exact.
    + rewrite iter_xO_mul, Hk'. f_equal. lia.
    + rewrite iter_xO_mul, <- Hk'. done.
    + lia.
Qed.

(** ** Comparison *)

Lemma SFltb_normal M1 E1 M2 E2 C :
  2 ^ 52 ≤ M1 < 2 ^ 53 → 2 ^ 52 ≤ M2 < 2 ^ 53 →
  C ≤ E1 → C ≤ E2 →
  M1 * 2 ^ (E1 - C) < M2 * 2 ^ (E2 - C) →
  SFltb (S754_finite false (Z.to_pos M1) E1) (S754_finite false (Z.to_pos M2) E2) = true.
Proof.
  intros HM1 HM2 HC1 HC2 Hlt.
  unfold SFltb, SFcompare.
  destruct (Z.compare_spec E1 E2) as [Heq|HltE|HgtE]; [|done|].
  - subst E2.
    assert (0 < 2 ^ (E1 - C)) by pow_positive.
    assert (M1 < M2) as HM by nia.
    replace (Pos.compare_cont Eq (Z.to_pos M1) (Z.to_pos M2)) with Lt; [done|].
    symmetry. change (Pos.compare_cont Eq ?a ?b) with (Pos.compare a b).
    apply Pos.compare_lt_iff. lia.
  - exfalso.
    assert (0 < 2 ^ (E2 - C)) by pow_positive.
    assert (2 ^ (E1 - C) = 2 ^ (E2 - C) * 2 ^ (E1 - E2)) as Hsplit
      by (rewrite <- Z.pow_add_r by lia; f_equal; lia).
    assert (2 ≤ 2 ^ (E1 - E2)).
    { change 2 with (2 ^ 1) at 1. apply Z.pow_le_mono_r; lia. }
    nia.
Qed.

(** ** Division *)

Lemma new_location_ok den r q num :
  0 < den → 0 ≤ r < den → num = den * q + r →
  inbetween q (new_location den r) num den.
Proof.
  intros Hden Hr Hnum. unfold new_location, new_location_even, new_location_odd.
  destruct (Z.even den) eqn:Heven.
  - destruct (Z.eqb_spec r 0) as [->|Hr0]; cbn [inbetween]; [lia|].
    split; [lia|]. destruct (Z.compare_spec (2 * r) den);
      [apply Z.compare_eq_iff | apply Z.compare_lt_iff | apply Z.compare_gt_iff]; lia.
  - destruct (Z.eqb_spec r 0) as [->|Hr0]; cbn [inbetween]; [lia|].
    split; [lia|].
    assert (Z.odd den = true) as Hodd by (by rewrite <- Z.negb_even, Heven).
    apply Z.odd_spec in Hodd as [h Hh].
    destruct (Z.compare_spec (2 * r + 1) den);
      [apply Z.compare_lt_iff | apply Z.compare_lt_iff | apply Z.compare_gt_iff]; lia.
Qed.

(** The quotient of two normal numbers, away from the ends of the
    exponent range: a normal number within half a unit in the last
    place of [ma / mb * 2 ^ (ea - eb)]. *)
Lemma SFdiv_normal ma ea mb eb :
  2 ^ 52 ≤ ma < 2 ^ 53 → 2 ^ 52 ≤ mb < 2 ^ 53 →
  -900 ≤ ea - eb ≤ 900 →
  ∃ M k,
    SFdiv prec emax (S754_finite false (Z.to_pos ma) ea)
                    (S754_finite false (Z.to_pos mb) eb)
    = S754_finite false (Z.to_pos M) (ea - eb - 53 + k)
    ∧ 2 ^ 52 ≤ M < 2 ^ 53
    ∧ 0 ≤ k ≤ 2
    ∧ - (2 ^ k * mb) ≤ 2 * (M * 2 ^ k * mb) - 2 * (ma * 2 ^ 53) ≤ 2 ^ k * mb.
Proof.
  intros Hma Hmb He.
  unfold SFdiv, SFdiv_core_binary. cbn [xorb].
  rewrite !Z2Pos.id by lia.
  rewrite (Zdigits2_eq ma 53), (Zdigits2_eq mb 53) by lia.
  replace (Z.min (fexp prec emax (53 + ea - (53 + eb))) (ea - eb)) with (ea - eb - 53)
    by (unfold fexp, emin, prec, emax; lia).
  replace (ea - eb - (ea - eb - 53)) with 53 by lia.
  rewrite Z.shiftl_mul_pow2 by lia.
  pose proof (Z_div_mod (ma * 2 ^ 53) mb ltac:(lia)) as Hdm.
  destruct (Z.div_eucl (ma * 2 ^ 53) mb) as [q r]. destruct Hdm as [Hnum Hr].
  assert (2 ^ 52 ≤ q < 2 ^ 54) as Hq.
  { change (2 ^ 54) with (2 * 2 ^ 53). nia. }
  assert (∃ d, (d = 53 ∨ d = 54) ∧ 2 ^ (d - 1) ≤ q < 2 ^ d) as (d & Hd & Hqd).
  { destruct (Z_lt_le_dec q (2 ^ 53)).
    - exists 53. split; [by left|]. change (53 - 1) with 52. lia.
    - exists 54. split; [by right|]. change (54 - 1) with 53. lia. }
  destruct (binary_round_aux_ok q (ea - eb - 53) (new_location mb r) (ma * 2 ^ 53) mb d)
    as (M & k & Heq & HM & Hk & Herr); try lia.
  { apply new_location_ok; lia. }
  exists M, k. split; [done|]. split; [done|]. split; [lia|]. done.
Qed.

(** ** Multiplication *)

(** The product of two normal numbers, away from the ends of the
    exponent range. *)
Lemma SFmul_normal ma ea mb eb :
  2 ^ 52 ≤ ma < 2 ^ 53 → 2 ^ 52 ≤ mb < 2 ^ 53 →
  -900 ≤ ea + eb ≤ 800 →
  ∃ M k,
    SFmul prec emax (S754_finite false (Z.to_pos ma) ea)
                    (S754_finite false (Z.to_pos mb) eb)
    = S754_finite false (Z.to_pos M) (ea + eb + k)
    ∧ 2 ^ 52 ≤ M < 2 ^ 53
    ∧ 52 ≤ k ≤ 54
    ∧ - 2 ^ k ≤ 2 * (M * 2 ^ k) - 2 * (ma * mb) ≤ 2 ^ k.
Proof.
  intros Hma Hmb He.
  unfold SFmul. cbn [xorb].
  rewrite Pos2Z.inj_mul, !Z2Pos.id by lia.
  assert (2 ^ 104 ≤ ma * mb < 2 ^ 106) as Hp.
  { change (2 ^ 104) with (2 ^ 52 * 2 ^ 52). change (2 ^ 106) with (2 ^ 53 * 2 ^ 53).
    nia. }
  assert (∃ d, (d = 105 ∨ d = 106) ∧ 2 ^ (d - 1) ≤ ma * mb < 2 ^ d) as (d & Hd & Hpd).
  { destruct (Z_lt_le_dec (ma * mb) (2 ^ 105)).
    - exists 105. split; [by left|]. change (105 - 1) with 104. lia.
    - exists 106. split; [by right|]. change (106 - 1) with 105. lia. }
  destruct (binary_round_aux_ok (ma * mb) (ea + eb) loc_Exact (ma * mb) 1 d)
    as (M & k & Heq & HM & Hk & Herr); try lia.
  { cbn [inbetween]. lia. }
  exists M, k. split; [done|]. split; [done|]. split; [lia|].
  rewrite !Z.mul_1_r in Herr. done.
Qed.

(** ** Percentages *)

Lemma float_of_int_100 : float_of_int 100 = float_100.
Proof. vm_compute. reflexivity. Qed.

(** The relative error of one rounding is at most [2 ^ -53]. *)
Lemma half_ulp_relative M k x y :
  2 ^ 52 ≤ M → 0 ≤ k → 0 < y →
  - (2 ^ k * y) ≤ 2 * (M * 2 ^ k * y) - 2 * x ≤ 2 ^ k * y →
  (2 ^ 53 - 1) * (M * 2 ^ k * y) ≤ 2 ^ 53 * x ≤ (2 ^ 53 + 1) * (M * 2 ^ k * y).
Proof.
  intros HM Hk Hy Herr.
  assert (0 < 2 ^ k) as Hpow by pow_positive.
  assert (2 ^ 52 * (2 ^ k * y) ≤ M * 2 ^ k * y) as Hu by nia.
  change (2 ^ 53) with (2 * 2 ^ 52). lia.
Qed.

Lemma percentage_normal a N sb :
  1 ≤ a < 2 ^ 53 → 0 ≤ sb ≤ 52 → 2 ^ 52 ≤ N * 2 ^ sb < 2 ^ 53 →
  float_of_int N = S754_finite false (Z.to_pos (N * 2 ^ sb)) (- sb) →
  ∃ M κ sa,
    0 ≤ sa ≤ 52 ∧ 0 ≤ κ
    ∧ 2 ^ 52 ≤ M < 2 ^ 53
    ∧ percentage a N = S754_finite false (Z.to_pos M) (sb - sa - 99 + κ)
    ∧ (2 ^ 53 - 1) * (2 ^ 53 - 1) * (M * 2 ^ κ * (N * 2 ^ sb))
      ≤ 2 ^ 53 * 2 ^ 53 * 7036874417766400 * (a * 2 ^ sa * 2 ^ 53)
    ∧ 2 ^ 53 * 2 ^ 53 * 7036874417766400 * (a * 2 ^ sa * 2 ^ 53)
      ≤ (2 ^ 53 + 1) * (2 ^ 53 + 1) * (M * 2 ^ κ * (N * 2 ^ sb)).
Proof.
  intros Ha Hsb Hmb HN.
  destruct (float_of_int_normal a Ha) as (sa & Hsa & Hma & Hfa).
  set (ma := a * 2 ^ sa) in *. set (mb := N * 2 ^ sb) in *.
  destruct (SFdiv_normal ma (- sa) mb (- sb)) as (MD & kD & Hdiv & HMD & HkD & HerrD);
    [done | done | lia |].
  destruct (SFmul_normal MD (- sa - - sb - 53 + kD) 7036874417766400 (-46))
    as (MR & kR & Hmul & HMR & HkR & HerrR); [done | lia | lia |].
  exists MR, (kD + kR), sa.
  split; [done|]. split; [lia|]. split; [done|].
  split.
  { unfold percentage, float_mul_int.
    rewrite Hfa, HN, Hdiv, float_of_int_100. unfold float_100.
    change 7036874417766400%positive with (Z.to_pos 7036874417766400).
    rewrite Hmul. f_equal. lia. }
  assert (0 < 2 ^ kD) as HpD by pow_positive.
  assert (0 < 2 ^ kR) as HpR by pow_positive.
  pose proof (half_ulp_relative MD kD (ma * 2 ^ 53) mb ltac:(lia) ltac:(lia) ltac:(lia) HerrD)
    as [HD1 HD2].
  pose proof (half_ulp_relative MR kR (MD * 7036874417766400) 1
                ltac:(lia) ltac:(lia) ltac:(lia)) as HR.
  rewrite !Z.mul_1_r in HR. specialize (HR HerrR). destruct HR as [HR1 HR2].
  rewrite Z.pow_add_r by lia.
  set (K := 2 ^ 53) in *. set (c := 7036874417766400) in *.
  set (u := MD * 2 ^ kD) in *. set (v := MR * 2 ^ kR) in *.
  set (A := ma * K) in *.
  change (a * 2 ^ sa * K) with A.
  assert (0 < u) as Hu by (unfold u; nia).
  assert (0 < v) as Hv by (unfold v; nia).
  assert (0 < mb) as Hmbpos by lia.
  assert (1 < K) as HK by (unfold K; lia).
  assert (0 < c) as Hc by (unfold c; lia).
  assert (MR * (2 ^ kD * 2 ^ kR) = v * 2 ^ kD) as -> by (unfold v; ring).
  assert ((K - 1) * (v * 2 ^ kD) ≤ K * (u * c)) as H1.
  { replace (K * (u * c)) with (K * (MD * c) * 2 ^ kD) by (unfold u; ring).
    replace ((K - 1) * (v * 2 ^ kD)) with ((K - 1) * v * 2 ^ kD) by ring.
    apply Z.mul_le_mono_nonneg_r; lia. }
  assert (K * (u * c) ≤ (K + 1) * (v * 2 ^ kD)) as H2.
  { replace (K * (u * c)) with (K * (MD * c) * 2 ^ kD) by (unfold u; ring).
    replace ((K + 1) * (v * 2 ^ kD)) with ((K + 1) * v * 2 ^ kD) by ring.
    apply Z.mul_le_mono_nonneg_r; lia. }
  set (t := v * 2 ^ kD) in *.
  split.
  - transitivity ((K - 1) * mb * (K * (u * c))).
    + replace ((K - 1) * (K - 1) * (t * mb)) with ((K - 1) * mb * ((K - 1) * t)) by ring.
      apply Z.mul_le_mono_nonneg_l; [nia|done].
    + replace ((K - 1) * mb * (K * (u * c))) with (K * c * ((K - 1) * (u * mb))) by ring.
      replace (K * K * c * A) with (K * c * (K * A)) by ring.
      apply Z.mul_le_mono_nonneg_l; [nia|done].
  - transitivity ((K + 1) * mb * (K * (u * c))).
    + replace ((K + 1) * mb * (K * (u * c))) with (K * c * ((K + 1) * (u * mb))) by ring.
      replace (K * K * c * A) with (K * c * (K * A)) by ring.
      apply Z.mul_le_mono_nonneg_l; [nia|done].
    + replace ((K + 1) * (K + 1) * (t * mb)) with ((K + 1) * mb * ((K + 1) * t)) by ring.
      apply Z.mul_le_mono_nonneg_l; [nia|done].
Qed.

Lemma order_from_bounds P Q mb X Y G a a' :
  0 < P → 0 < Q → 0 < mb → 0 < G →
  P * (X * mb) ≤ G * a → G * a' ≤ Q * (Y * mb) → a * Q < a' * P →
  X < Y.
Proof.
  intros HP HQ Hmb HG H1 H2 H3.
  destruct (Z_lt_le_dec X Y) as [|Hle]; [done|exfalso].
  assert (Q * (P * (X * mb)) ≤ Q * (G * a)) as H4
    by (apply Z.mul_le_mono_nonneg_l; lia).
  assert (P * (G * a') ≤ P * (Q * (Y * mb))) as H5
    by (apply Z.mul_le_mono_nonneg_l; lia).
  assert (G * (a * Q) < G * (a' * P)) as H6
    by (apply Z.mul_lt_mono_pos_l; lia).
  assert (P * Q * mb * Y ≤ P * Q * mb * X) as H7
    by (apply Z.mul_le_mono_nonneg_l; [nia|lia]).
  lia.
Qed.

(** The percentages of a run increase strictly with the step. *)
Lemma percentage_lt a a' N :
  1 ≤ a → a < a' → a' ≤ N → N ≤ 2 ^ 50 →
  SFltb (percentage a N) (percentage a' N) = true.
Proof.
  intros Ha Haa' Ha'N HN.
  destruct (float_of_int_normal N ltac:(lia)) as (sb & Hsb & Hmb & HfN).
  destruct (percentage_normal a N sb ltac:(lia) Hsb Hmb HfN)
    as (M & κ & sa & Hsa & Hκ & HM & Hp & Hlo & _).
  destruct (percentage_normal a' N sb ltac:(lia) Hsb Hmb HfN)
    as (M' & κ' & sa' & Hsa' & Hκ' & HM' & Hp' & _ & Hhi').
  rewrite Hp, Hp'.
  apply (SFltb_normal _ _ _ _ (sb - sa - sa' - 99)); [done|done|lia|lia|].
  replace (sb - sa - 99 + κ - (sb - sa - sa' - 99)) with (κ + sa') by lia.
  replace (sb - sa' - 99 + κ' - (sb - sa - sa' - 99)) with (κ' + sa) by lia.
  rewrite !Z.pow_add_r by lia.
  assert (0 < 2 ^ sa) as Hpa by pow_positive.
  assert (0 < 2 ^ sa') as Hpa' by pow_positive.
  apply (order_from_bounds ((2 ^ 53 - 1) * (2 ^ 53 - 1)) ((2 ^ 53 + 1) * (2 ^ 53 + 1))
           (N * 2 ^ sb) _ _
           (2 ^ 53 * 2 ^ 53 * 7036874417766400 * 2 ^ 53 * 2 ^ sa * 2 ^ sa') a a');
    try lia.
  - replace ((2 ^ 53 - 1) * (2 ^ 53 - 1) * (M * (2 ^ κ * 2 ^ sa') * (N * 2 ^ sb)))
      with ((2 ^ 53 - 1) * (2 ^ 53 - 1) * (M * 2 ^ κ * (N * 2 ^ sb)) * 2 ^ sa') by ring.
    replace (2 ^ 53 * 2 ^ 53 * 7036874417766400 * 2 ^ 53 * 2 ^ sa * 2 ^ sa' * a)
      with (2 ^ 53 * 2 ^ 53 * 7036874417766400 * (a * 2 ^ sa * 2 ^ 53) * 2 ^ sa') by ring.
    apply Z.mul_le_mono_nonneg_r; lia.
  - replace ((2 ^ 53 + 1) * (2 ^ 53 + 1) * (M' * (2 ^ κ' * 2 ^ sa) * (N * 2 ^ sb)))
      with ((2 ^ 53 + 1) * (2 ^ 53 + 1) * (M' * 2 ^ κ' * (N * 2 ^ sb)) * 2 ^ sa) by ring.
    replace (2 ^ 53 * 2 ^ 53 * 7036874417766400 * 2 ^ 53 * 2 ^ sa * 2 ^ sa' * a')
      with (2 ^ 53 * 2 ^ 53 * 7036874417766400 * (a' * 2 ^ sa' * 2 ^ 53) * 2 ^ sa) by ring.
    apply Z.mul_le_mono_nonneg_r; lia.
Qed.

(** The percentage of the last step is exactly 100. *)
Lemma percentage_full N :
  1 ≤ N < 2 ^ 53 → percentage N N = float_100.
Proof.
  intros HN.
  destruct (float_of_int_normal N HN) as (sb & Hsb & Hmb & HfN).
  set (mb := N * 2 ^ sb) in *.
  destruct (SFdiv_normal mb (- sb) mb (- sb)) as (M & k & Hdiv & HM & Hk & Herr);
    [done | done | lia |].
  assert (k = 1 ∧ M = 2 ^ 52) as [-> ->].
  { assert (k = 0 ∨ k = 1 ∨ k = 2) as [-> | [-> | ->]] by lia.
    - change (2 ^ 0) with 1 in Herr. nia.
    - change (2 ^ 1) with 2 in Herr. split; [done|]. nia.
    - change (2 ^ 2) with 4 in Herr. nia. }
  unfold percentage, float_mul_int. rewrite HfN, Hdiv.
  replace (- sb - - sb - 53 + 1) with (-52) by lia.
  vm_compute. reflexivity.
Qed.

(** * The program *)

Section Properties.

Context `{os : OS W}.

Implicit Types (st : @State W) (ops : list step) (cb : option (@callback W)).

(** ** The monad *)

Lemma bind_returned {A B} (m : M A) (f : A → M B) st a st' :
  m st = (Returned a, st') → (m ≫= f) st = f a st'.
Proof. intros E. unfold mbind, M_bind. by rewrite E. Qed.


(** ** [run_command] *)

Lemma run_command_eq argv timeout st :
  run_command argv timeout st =
    let o := (os_exec argv (Some timeout) (world st)).1 in
    (Returned (returned_pair o),
     {| world := (os_exec argv (Some timeout) (world st)).2;
        operations_log := operations_log st;
        logger := logger st
                  ++ [(INFO, lit "Executing command: " ++ join (lit " ") argv)];
        trace := trace st ++ [EvSpawn argv (Some timeout);
                              EvRan argv (returned_pair o).1 (returned_pair o).2] |}).
Proof.
  unfold run_command, try_except, subprocess_run, logger_log, emit,
    mbind, M_bind, mret, M_ret; simpl.
  destruct (os_exec argv (Some timeout) (world st)) as [o w]; simpl.
  destruct o as [rc out err| |msg]; simpl.
  - destruct (rc =? 0); simpl; by rewrite <- app_assoc.
  - by rewrite <- app_assoc.
  - by rewrite <- app_assoc.
Qed.

(** ** One step of the runner *)

Lemma execute_step_spec total cb i op results st :
  total ≠ 0 →
  ∃ r st',
    execute_step total cb i op results st = (Returned (results ++ [step_line op r]), st')
    ∧ operations_log st' = operations_log st ++ [step_entry op r]
    ∧ trace st' = trace st ++ step_events (bool_decide (is_Some cb)) total i op r.
Proof.
  intros Htotal. destruct op as [c d].
  unfold execute_step.
  set (pre := match cb with Some f => _ | None => _ end).
  assert (∃ st1, pre st = (Returned tt, st1)
                 ∧ operations_log st1 = operations_log st
                 ∧ trace st1 = trace st ++
                     (if bool_decide (is_Some cb)
                      then [EvProgress (percentage (i + 1) total) d] else []))
    as (st1 & Hpre & Hlog1 & Htr1).
  { subst pre. destruct cb as [f|].
    - unfold int_truediv. apply Z.eqb_neq in Htotal. rewrite Htotal.
      eexists. split; [reflexivity|]. simpl. split; [done|]. done.
    - exists st. split; [done|]. split; [done|].
      rewrite bool_decide_false; [by rewrite app_nil_r | by intros [? ?]]. }
  rewrite (bind_returned _ _ _ _ _ Hpre).
  rewrite (bind_returned _ _ _ _ _ (run_command_eq c 300 st1)).
  set (o := (os_exec c (Some 300) (world st1)).1).
  destruct (returned_pair o) as [ok out] eqn:Ho. simpl.
  unfold datetime_now_isoformat, operations_log_append, logger_log,
    mbind, M_bind, mret, M_ret; simpl.
  destruct (now_isoformat (os_exec c (Some 300) (world st1)).2) as [ts w2] eqn:Hnow.
  exists (ok, out, ts).
  destruct ok; simpl; eexists; (split; [reflexivity|]); simpl;
    rewrite Hlog1, Htr1; unfold step_events, step_entry; simpl;
    (split; [done|]); by rewrite <- !app_assoc.
Qed.

(** ** The loop *)

Lemma execute_loop_spec total cb ops : ∀ i results st,
  total ≠ 0 →
  ∃ rs st',
    length rs = length ops
    ∧ execute_loop total cb i ops results st
      = (Returned (results ++ zip_with step_line ops rs), st')
    ∧ operations_log st' = operations_log st ++ zip_with step_entry ops rs
    ∧ trace st' = trace st ++ run_events (bool_decide (is_Some cb)) total i ops rs.
Proof.
  induction ops as [|op ops IH]; intros i results st Htotal.
  - exists [], st. simpl. by rewrite !app_nil_r.
  - destruct (execute_step_spec total cb i op results st Htotal)
      as (r & st1 & Hstep & Hlog1 & Htr1).
    destruct (IH (i + 1) (results ++ [step_line op r]) st1 Htotal)
      as (rs & st' & Hlen & Hloop & Hlog & Htr).
    exists (r :: rs), st'. simpl.
    split; [by rewrite Hlen|].
    split; [by rewrite (bind_returned _ _ _ _ _ Hstep), Hloop, <- app_assoc|].
    split; [by rewrite Hlog, Hlog1, <- app_assoc|].
    by rewrite Htr, Htr1, <- app_assoc.
Qed.

Lemma execute_operations_spec ops cb st :
  ∃ rs st',
    length rs = length ops
    ∧ _execute_operations ops cb st
      = (Returned (true, join newline (zip_with step_line ops rs)), st')
    ∧ operations_log st' = operations_log st ++ zip_with step_entry ops rs
    ∧ trace st' = trace st ++ run_events (bool_decide (is_Some cb)) (len ops) 0 ops rs.
Proof.
  unfold _execute_operations.
  destruct ops as [|op ops].
  - exists [], st. simpl. by rewrite !app_nil_r.
  - assert (len (op :: ops) ≠ 0) as Htotal by (unfold len; simpl; lia).
    destruct (execute_loop_spec (len (op :: ops)) cb (op :: ops) 0 [] st Htotal)
      as (rs & st' & Hlen & Hloop & Hlog & Htr).
    exists rs, st'. split; [done|].
    split; [by rewrite (bind_returned _ _ _ _ _ Hloop)|]. done.
Qed.

(** ** Reading the events of a run *)

Lemma ran_app tr1 tr2 : ran (tr1 ++ tr2) = ran tr1 ++ ran tr2.
Proof. apply flat_map_app. Qed.

Lemma spawned_app tr1 tr2 : spawned (tr1 ++ tr2) = spawned tr1 ++ spawned tr2.
Proof. apply flat_map_app. Qed.


Lemma progress_calls_app tr1 tr2 :
  progress_calls (tr1 ++ tr2) = progress_calls tr1 ++ progress_calls tr2.
Proof. apply flat_map_app. Qed.

Lemma ran_run_events b total ops : ∀ i rs,
  ran (run_events b total i ops rs) = zip_with (λ op r, (op.1, r.1.1, r.1.2)) ops rs.
Proof.
  induction ops as [|op ops IH]; intros i [|r rs]; try done.
  simpl. unfold step_events. rewrite !ran_app, IH. by destruct b.
Qed.



Lemma progress_calls_run_events total ops : ∀ i rs,
  length rs = length ops →
  progress_calls (run_events true total i ops rs)
  = imap (λ j op, (percentage (i + Z.of_nat j + 1) total, op.2)) ops.
Proof.
  induction ops as [|op ops IH]; intros i [|r rs] Hlen; try done.
  simpl. rewrite IH by (simpl in Hlen; lia).
  rewrite Z.add_0_r. f_equal.
  apply imap_ext. intros j x _. simpl. do 2 f_equal. lia.
Qed.

Lemma progress_calls_run_events_none total ops : ∀ i rs,
  progress_calls (run_events false total i ops rs) = [].
Proof.
  induction ops as [|op ops IH]; intros i [|r rs]; try done.
  simpl. apply IH.
Qed.





(** ** Package-manager selection *)

Definition after_probe (c : str) st : @State W :=
  {| world := (os_exec [lit "which"; c] None (world st)).2;
     operations_log := operations_log st;
     logger := logger st;
     trace := trace st ++ [EvSpawn [lit "which"; c] None] |}.

Lemma command_exists_eq c st :
  command_exists c st =
    (match (os_exec [lit "which"; c] None (world st)).1 with
     | Exited rc _ _ => Returned (rc =? 0)
     | TimedOut => Raised TimeoutExpired
     | LaunchFailed msg => Raised (OtherException msg)
     end, after_probe c st).
Proof.
  unfold command_exists, try_except, subprocess_run, after_probe,
    mbind, M_bind, mret, M_ret; simpl.
  destruct (os_exec [lit "which"; c] None (world st)) as [o w]; simpl.
  destruct o as [rc out err| |msg]; simpl; try done.
  by destruct (rc =? 0).
Qed.


(** Where every [which] probe can be spawned and exits, the selection
    is total: the first candidate of the distribution that [which]
    finds, and [apt] when there is none or the distribution is not in
    the table. *)
Lemma first_existing_when_which_runs (installed : str → bool) pms :
  (∀ c w, ∃ rc out err,
     (os_exec [lit "which"; c] None w).1 = Exited rc out err
     ∧ installed c = (rc =? 0)) →
  ∀ st, ∃ st', first_existing pms st = (Returned (List.find installed pms), st').
Proof.
  intros Hwhich. induction pms as [|pm pms IH]; intros st.
  - by exists st.
  - destruct (Hwhich pm (world st)) as (rc & out & err & Ho & Hi).
    assert (command_exists pm st = (Returned (installed pm), after_probe pm st)) as Hce
      by (by rewrite command_exists_eq, Ho, Hi).
    simpl. rewrite (bind_returned _ _ _ _ _ Hce).
    destruct (installed pm).
    + by eexists.
    + apply IH.
Qed.

Lemma get_package_manager_when_which_runs (installed : str → bool) distro st :
  (∀ c w, ∃ rc out err,
     (os_exec [lit "which"; c] None w).1 = Exited rc out err
     ∧ installed c = (rc =? 0)) →
  ∃ st',
    get_package_manager distro st
    = (Returned match supported_distros !! distro with
                | Some pms => default (lit "apt") (List.find installed pms)
                | None => lit "apt"
                end, st').
Proof.
  intros Hwhich. unfold get_package_manager.
  destruct (supported_distros !! distro) as [pms|]; [|by eexists].
  destruct (first_existing_when_which_runs installed pms Hwhich st) as [st' Hfirst].
  exists st'. rewrite (bind_returned _ _ _ _ _ Hfirst).
  by destruct (List.find installed pms).
Qed.

(** ** The command runner *)

(** C4.  [run_command] never raises: it returns [(False, "Command timed
    out")] when the timeout expires, [(False, "Command failed: " +
    stderr)] on a non-zero exit status, [(False, "Error: " + str(e))]
    when the process cannot be started, and [(True, stdout + stderr)]
    on success. *)
Theorem run_command_never_raises argv timeout st :
  ∃ r st',
    run_command argv timeout st = (Returned r, st')
    ∧ match (os_exec argv (Some timeout) (world st)).1 with
      | TimedOut => r = (false, lit "Command timed out")
      | Exited rc out err =>
          if rc =? 0 then r = (true, out ++ err)
          else r = (false, lit "Command failed: " ++ err)
      | LaunchFailed msg => r = (false, lit "Error: " ++ msg)
      end.
Proof.
  rewrite run_command_eq. eexists _, _. split; [reflexivity|].
  destruct ((os_exec argv (Some timeout) (world st)).1) as [rc out err| |msg];
    simpl; try done.
  by destruct (rc =? 0).
Qed.

(** ** The operation runner *)

(** C1.  For every list of steps, every callback and every behaviour of
    the operating system, [_execute_operations] returns [True] together
    with the summary, one line per step.  The flags [r.1.1] are the ones
    [run_command] returned for the steps; the overall flag is [true]
    whatever they are. *)
Theorem execute_reports_success ops cb st :
  ∃ rs st',
    length rs = length ops
    ∧ _execute_operations ops cb st
      = (Returned (true, join newline (zip_with step_line ops rs)), st')
    ∧ ran (trace st')
      = ran (trace st) ++ zip_with (λ op r, (op.1, r.1.1, r.1.2)) ops rs.
Proof.
  destruct (execute_operations_spec ops cb st) as (rs & st' & Hlen & Hrun & _ & Htr).
  exists rs, st'. split; [done|]. split; [done|].
  by rewrite Htr, ran_app, ran_run_events.
Qed.



(** C10.  With a package manager that is none of apt, apt-get, dnf, yum
    and pacman, [update_system] builds the empty list; on the empty
    list the runner returns [(True, "")] and leaves the state as it
    was: no callback call, no log entry, and no division at all. *)
Theorem update_system_empty_steps pm cb st :
  pm ∉ [lit "apt"; lit "apt-get"; lit "dnf"; lit "yum"; lit "pacman"] →
  update_system_operations pm = []
  ∧ _execute_operations [] cb st = (Returned (true, []), st)
  ∧ update_system pm cb st = (Returned (true, []), st).
Proof.
  intros Hpm.
  assert (update_system_operations pm = []) as Hops.
  { rewrite !not_elem_of_cons in Hpm.
    destruct Hpm as (Hapt & Haptget & Hdnf & Hyum & Hpacman & _).
    unfold update_system_operations, str_in.
    rewrite (bool_decide_false (pm ∈ [lit "apt"; lit "apt-get"])).
    2: { rewrite !not_elem_of_cons. repeat split; try done. apply not_elem_of_nil. }
    rewrite (bool_decide_false (pm ∈ [lit "dnf"; lit "yum"])).
    2: { rewrite !not_elem_of_cons. repeat split; try done. apply not_elem_of_nil. }
    by rewrite (bool_decide_false (pm = lit "pacman")). }
  split; [done|]. split; [done|].
  unfold update_system. by rewrite Hops.
Qed.


End Properties.

(** ** The operation tables *)

(** C8.  With pacman selected, the cleanup list is the pacman pair
    (remove orphans, clean the cache) followed by the five file-system
    cleanup commands, in this order, and nothing else. *)
Theorem cleanup_steps_pacman :
  auto_remove_unused_operations (lit "pacman") =
    [ (cmd ["sudo"; "pacman"; "-Rns"; "--noconfirm"; "$(pacman -Qtdq)"],
       lit "Removing orphaned packages...");
      (cmd ["sudo"; "pacman"; "-Scc"; "--noconfirm"], lit "Cleaning package cache...");
      (cmd ["sudo"; "journalctl"; "--vacuum-time=3d"], lit "Cleaning old logs...");
      (cmd ["sudo"; "find"; "/tmp"; "-type"; "f"; "-atime"; "+7"; "-delete"],
       lit "Cleaning temp files...");
      (cmd ["sudo"; "find"; "/var/tmp"; "-type"; "f"; "-atime"; "+7"; "-delete"],
       lit "Cleaning var temp...");
      (cmd ["sudo"; "find"; "/var/log"; "-name"; "*.log"; "-type"; "f"; "-mtime"; "+30";
            "-delete"],
       lit "Cleaning old logs...");
      (cmd ["sudo"; "find"; "/home"; "-name"; ".cache"; "-type"; "d"; "-exec"; "rm";
            "-rf"; "{}"; "+"],
       lit "Cleaning user caches...") ]
  ∧ length (auto_remove_unused_package_cleanup (lit "pacman")) = 2%nat
  ∧ length cleanup_operations = 5%nat.
Proof. split; [|split]; vm_compute; reflexivity. Qed.

(** C3, as stated in the specification, fails: no list of five host
    fixes ends the fix list of every package manager.  With zypper the
    whole list has four steps. *)
Lemma fix_steps_five_host_fixes_refuted :
  ¬ ∃ host_fixes : list step,
      length host_fixes = 5%nat
      ∧ ∀ pm, ∃ specific, fix_system_operations pm = specific ++ host_fixes.
Proof.
  intros (host_fixes & Hlen & Hall).
  destruct (Hall (lit "zypper")) as (specific & Heq).
  apply (f_equal length) in Heq. rewrite length_app, Hlen in Heq.
  assert (length (fix_system_operations (lit "zypper")) = 4%nat) as H4
    by (vm_compute; reflexivity).
  lia.
Qed.

(** C3, amended.  For every package manager the fix list is the
    manager-specific repair commands followed by four host fixes that
    are always run: vacuum the journal to 7 days, reload systemd,
    refresh the dynamic-linker cache, refresh the locate database. *)
Theorem fix_steps_four_host_fixes pm :
  fix_system_operations pm =
    fix_system_specific pm ++
    [ (cmd ["sudo"; "journalctl"; "--vacuum-time=7d"], lit "Cleaning system logs...");
      (cmd ["sudo"; "systemctl"; "daemon-reload"], lit "Reloading systemd...");
      (cmd ["sudo"; "ldconfig"], lit "Updating library cache...");
      (cmd ["sudo"; "updatedb"], lit "Updating locate database...") ]
  ∧ length (fix_system_operations pm) = (length (fix_system_specific pm) + 4)%nat.
Proof.
  unfold fix_system_operations. split; [reflexivity|].
  by rewrite length_app.
Qed.

(** ** On the example hosts *)

(** C7.  On a host where pacman is installed and [which] is not, the
    selection for Arch raises instead of returning a package manager. *)
Theorem get_package_manager_without_which :
  (os_exec (OS := no_which) [lit "pacman"; lit "--version"] None 0%nat).1 = Exited 0 [] []
  ∧ (get_package_manager (os := no_which) (lit "arch") (initial_state 0%nat)).1
    = Raised (OtherException (lit "[Errno 2] No such file or directory: 'which'"))
  ∧ (get_package_manager (os := no_which) (lit "ubuntu") (initial_state 0%nat)).1
    = Raised (OtherException (lit "[Errno 2] No such file or directory: 'which'")).
Proof. repeat split; vm_compute; reflexivity. Qed.


Lemma update_system_empty_steps_witness :
  (lit "zypper" ∉ [lit "apt"; lit "apt-get"; lit "dnf"; lit "yum"; lit "pacman"])
  ∧ update_system (os := sample) (lit "zypper") (Some idle_callback) (initial_state 0%nat)
    = (Returned (true, []), initial_state 0%nat).
Proof.
  assert (lit "zypper" ∉ [lit "apt"; lit "apt-get"; lit "dnf"; lit "yum"; lit "pacman"])
    as H.
  { rewrite !not_elem_of_cons. repeat split; try discriminate. apply not_elem_of_nil. }
  split; [exact H|].
  apply (update_system_empty_steps (os := sample) (lit "zypper") (Some idle_callback)
           (initial_state 0%nat) H).
Defined.

(** The fix run for pacman on the sample host: [journalctl] and
    [ldconfig] fail, the run goes on and reports [True]. *)
Example fix_system_on_sample :
  let r := fix_system (os := sample) (lit "pacman") (Some idle_callback)
             (initial_state 0%nat) in
  (∃ summary, r.1 = Returned (true, summary))
  ∧ success <$> operations_log r.2 = [true; true; true; false; true; false; true]
  ∧ output <$> operations_log r.2
    = [lit "okwarning"; lit "okwarning"; lit "okwarning";
       lit "Command failed: No journal files"; lit "okwarning";
       lit "Error: [Errno 2] No such file or directory: 'sudo'"; lit "okwarning"]
  ∧ world r.2 = 7%nat.
Proof. vm_compute. split; [by eexists|]. done. Qed.

(** On the sample host the selection for Arch finds pacman, and falls
    back to apt for a distribution it does not know. *)
Example get_package_manager_on_sample :
  (get_package_manager (os := sample) (lit "arch") (initial_state 0%nat)).1
    = Returned (lit "pacman")
  ∧ (get_package_manager (os := sample) (lit "fedora") (initial_state 0%nat)).1
    = Returned (lit "apt")
  ∧ (get_package_manager (os := sample) (lit "gentoo") (initial_state 0%nat)).1
    = Returned (lit "apt").
Proof. repeat split; vm_compute; reflexivity. Qed.


(** The percentages reported for three steps are the binary64 numbers
    that Python prints as 33.33333333333333, 66.66666666666666 and
    100.0. *)
Example percentage_of_three :
  percentage 1 3 = S754_finite false 4691249611844266 (-47)
  ∧ percentage 2 3 = S754_finite false 4691249611844266 (-46)
  ∧ percentage 3 3 = float_100.
Proof. repeat split; vm_compute; reflexivity. Qed.

(** * More properties *)

Section MoreProperties.

Context `{os : OS W} `{host : Host W}.

Implicit Types (st : @State W).

(** ** [detect_distro] *)

Lemma str_contains_spec needle hay :
  str_contains needle hay = true ↔ occurs_in needle hay.
Proof.
  unfold occurs_in. induction hay as [|c hay IH]; simpl.
  - rewrite orb_false_r, bool_decide_eq_true. split.
    + intros Hp. apply prefix_nil_inv in Hp as ->. by exists [], [].
    + intros (before & after & Heq). symmetry in Heq.
      apply app_eq_nil in Heq as [-> Heq]. apply app_eq_nil in Heq as [-> _].
      done.
  - rewrite orb_true_iff, bool_decide_eq_true, IH. split.
    + intros [[k Hk]|(before & after & Heq)].
      * by exists [], k.
      * exists (c :: before), after. by rewrite Heq.
    + intros (before & after & Heq). destruct before as [|c' before].
      * left. by exists after.
      * right. injection Heq as _ Heq. by exists before, after.
Qed.

Lemma match_release_names content name :
  match_release content = Some name → name ∈ lit <$> release_names.
Proof.
  unfold match_release.
  repeat (destruct (str_contains _ content); [intros [= <-]; set_solver|]).
  done.
Qed.

Lemma marker_name_names w :
  marker_name w ∈ (lit <$> release_names) ++ [lit "unknown"].
Proof.
  unfold marker_name.
  repeat (destruct (path_exists _ w); [set_solver|]). set_solver.
Qed.

Lemma detect_by_marker_eq st : detect_by_marker st = (Returned (marker_name (world st)), st).
Proof.
  unfold detect_by_marker, marker_name, os_path_exists, mbind, M_bind, mret, M_ret.
  by repeat (destruct (path_exists _ (world st))).
Qed.

Lemma detect_distro_eq st :
  detect_distro st =
    if path_exists (lit "/etc/os-release") (world st) then
      match read_text (lit "/etc/os-release") (world st) with
      | inl content =>
          (Returned (default (marker_name (world st))
                       (match_release (str_lower content))), st)
      | inr msg =>
          (Returned (lit "unknown"),
           {| world := world st; operations_log := operations_log st;
              logger := logger st
                        ++ [(ERROR, lit "Error detecting distribution: " ++ msg)];
              trace := trace st |})
      end
    else (Returned (marker_name (world st)), st).
Proof.
  unfold detect_distro, try_except, os_path_exists, open_read, mbind, M_bind,
    mret, M_ret.
  destruct (path_exists (lit "/etc/os-release") (world st)).
  - destruct (read_text (lit "/etc/os-release") (world st)) as [content|msg]; [|done].
    destruct (match_release (str_lower content)); [done|].
    by rewrite detect_by_marker_eq.
  - by rewrite detect_by_marker_eq.
Qed.

(** X1.  [detect_distro] never raises: it returns one of the six
    distribution names or ["unknown"], and neither runs a process nor
    touches the operations log or the world. *)
Theorem detect_distro_never_raises st :
  ∃ name st',
    detect_distro st = (Returned name, st')
    ∧ name ∈ (lit <$> release_names) ++ [lit "unknown"]
    ∧ world st' = world st
    ∧ operations_log st' = operations_log st
    ∧ trace st' = trace st.
Proof.
  rewrite detect_distro_eq.
  destruct (path_exists (lit "/etc/os-release") (world st)).
  - destruct (read_text (lit "/etc/os-release") (world st)) as [content|msg].
    + eexists _, st. split; [done|]. split; [|done].
      destruct (match_release (str_lower content)) as [name|] eqn:Hm; cbn [default].
      * apply elem_of_app. left. by apply (match_release_names (str_lower content)).
      * apply marker_name_names.
    + eexists _, _. split; [done|]. split; [|done].
      apply elem_of_app. right. by apply list_elem_of_singleton.
  - eexists _, st. split; [done|]. split; [|done]. apply marker_name_names.
Qed.

(** X2.  When [/etc/os-release] can be read, the answer is the first
    name, in the order ubuntu, debian, fedora, centos, arch, opensuse,
    that occurs anywhere in the lowered text, whatever the marker
    files say and whatever other names occur later in the order. *)
Theorem detect_distro_first_match k name content st :
  path_exists (lit "/etc/os-release") (world st) = true →
  read_text (lit "/etc/os-release") (world st) = inl content →
  release_names !! k = Some name →
  occurs_in (lit name) (str_lower content) →
  (∀ j earlier, (j < k)%nat → release_names !! j = Some earlier →
     ¬ occurs_in (lit earlier) (str_lower content)) →
  detect_distro st = (Returned (lit name), st).
Proof.
  intros Hex Hread Hk Hin Hfirst.
  rewrite detect_distro_eq, Hex, Hread.
  apply str_contains_spec in Hin.
  assert (∀ j earlier, (j < k)%nat → release_names !! j = Some earlier →
            str_contains (lit earlier) (str_lower content) = false) as Hnot.
  { intros j earlier Hj Hlook. apply not_true_is_false.
    rewrite str_contains_spec. by apply (Hfirst j). }
  unfold match_release.
  do 6 (destruct k as [|k];
        [injection Hk as <-; by rewrite Hin
        |rewrite (Hnot 0%nat _ ltac:(lia) eq_refl);
         specialize (λ j, Hnot (S j)); specialize (λ j, Hfirst (S j));
         simpl in Hk]; try done).
Qed.

(** X3.  When [/etc/os-release] exists and reading it raises, the
    answer is ["unknown"] and the error is logged: the marker files
    are not consulted, even where one of them exists. *)
Theorem detect_distro_unreadable msg st :
  path_exists (lit "/etc/os-release") (world st) = true →
  read_text (lit "/etc/os-release") (world st) = inr msg →
  ∃ st',
    detect_distro st = (Returned (lit "unknown"), st')
    ∧ logger st' = logger st ++ [(ERROR, lit "Error detecting distribution: " ++ msg)]
    ∧ world st' = world st.
Proof.
  intros Hex Hread. rewrite detect_distro_eq, Hex, Hread. by eexists.
Qed.

(** X4.  When [/etc/os-release] is missing, or is read and holds none
    of the six names, the marker files decide, in this order:
    [/etc/debian_version] gives debian, [/etc/redhat-release] gives
    fedora, [/etc/arch-release] gives arch, and none gives unknown. *)
Theorem detect_distro_fallback st :
  (path_exists (lit "/etc/os-release") (world st) = false
   ∨ ∃ content,
       read_text (lit "/etc/os-release") (world st) = inl content
       ∧ ∀ name, name ∈ release_names → ¬ occurs_in (lit name) (str_lower content)) →
  ∃ name,
    detect_distro st = (Returned name, st)
    ∧ (path_exists (lit "/etc/debian_version") (world st) = true → name = lit "debian")
    ∧ (path_exists (lit "/etc/debian_version") (world st) = false →
       path_exists (lit "/etc/redhat-release") (world st) = true → name = lit "fedora")
    ∧ (path_exists (lit "/etc/debian_version") (world st) = false →
       path_exists (lit "/etc/redhat-release") (world st) = false →
       path_exists (lit "/etc/arch-release") (world st) = true → name = lit "arch")
    ∧ (path_exists (lit "/etc/debian_version") (world st) = false →
       path_exists (lit "/etc/redhat-release") (world st) = false →
       path_exists (lit "/etc/arch-release") (world st) = false →
       name = lit "unknown").
Proof.
  intros Hcase. exists (marker_name (world st)). split.
  - rewrite detect_distro_eq.
    destruct Hcase as [->|(content & Hread & Hnone)]; [done|].
    rewrite Hread.
    assert (match_release (str_lower content) = None) as ->.
    { unfold match_release.
      repeat match goal with
             | |- context [str_contains (lit ?n) _] =>
                 rewrite (not_true_is_false (str_contains (lit n) (str_lower content)))
                   by (rewrite str_contains_spec; apply Hnone;
                       unfold release_names; set_solver)
             end.
      done. }
    by destruct (path_exists _ _).
  - unfold marker_name.
    repeat split; intros; repeat match goal with H : path_exists _ _ = _ |- _ =>
                                   rewrite H; clear H end; done.
Qed.

(** ** [SystemManager.__init__] *)

Lemma first_existing_member pms : ∀ st st' pm,
  first_existing pms st = (Returned (Some pm), st') → pm ∈ pms.
Proof.
  induction pms as [|c pms IH]; intros st st' pm; simpl.
  - by intros [= ].
  - unfold mbind, M_bind. rewrite command_exists_eq.
    destruct ((os_exec [lit "which"; c] None (world st)).1) as [rc out err| |msg];
      try by intros [= ].
    destruct (rc =? 0).
    + intros [= <- _]. by left.
    + intros Hrest. right. by apply (IH _ _ _ Hrest).
Qed.

Lemma get_package_manager_member d st st' pm :
  get_package_manager d st = (Returned pm, st') →
  pm = lit "apt" ∨ ∃ pms, supported_distros !! d = Some pms ∧ pm ∈ pms.
Proof.
  unfold get_package_manager.
  destruct (supported_distros !! d) as [pms|] eqn:Hd; [|intros [= <- _]; by left].
  unfold mbind, M_bind.
  destruct (first_existing pms st) as [[[pm'|]|e] st1] eqn:Hfirst.
  - intros [= <- _]. right. exists pms. split; [done|].
    by apply (first_existing_member pms st st1).
  - intros [= <- _]. by left.
  - by intros [= ].
Qed.

(** X5.  Whenever the constructor returns, the distribution it holds
    is one of the seven names and the package manager it holds is
    ["apt"] or one of the candidates listed for that distribution. *)
Theorem SystemManager_init_selection sm st st' :
  SystemManager_init st = (Returned sm, st') →
  distro sm ∈ (lit <$> release_names) ++ [lit "unknown"]
  ∧ (package_manager sm = lit "apt"
     ∨ ∃ pms, supported_distros !! distro sm = Some pms ∧ package_manager sm ∈ pms).
Proof.
  unfold SystemManager_init.
  destruct (detect_distro_never_raises st) as (d & st1 & Hd & Hname & _).
  rewrite (bind_returned _ _ _ _ _ Hd).
  unfold mbind, M_bind.
  destruct (get_package_manager d st1) as [[pm|e] st2] eqn:Hpm; [|by intros [= ]].
  intros [= <- _]. simpl. split; [done|].
  by apply (get_package_manager_member d st1 st2).
Qed.

(** X6.  On a machine with neither [/etc/os-release] nor any marker
    file the constructor holds ["unknown"] and ["apt"], and it has
    spawned no process: the fallback is taken without any probe. *)
Theorem SystemManager_init_bare_machine st :
  path_exists (lit "/etc/os-release") (world st) = false →
  path_exists (lit "/etc/debian_version") (world st) = false →
  path_exists (lit "/etc/redhat-release") (world st) = false →
  path_exists (lit "/etc/arch-release") (world st) = false →
  ∃ st',
    SystemManager_init st
    = (Returned {| distro := lit "unknown"; package_manager := lit "apt" |}, st')
    ∧ trace st' = trace st
    ∧ world st' = world st
    ∧ logger st' = logger st ++ [(INFO, lit "Detected distribution: unknown")].
Proof.
  intros H0 H1 H2 H3. unfold SystemManager_init.
  assert (detect_distro st = (Returned (lit "unknown"), st)) as Hd.
  { rewrite detect_distro_eq, H0. unfold marker_name. by rewrite H1, H2, H3. }
  rewrite (bind_returned _ _ _ _ _ Hd).
  assert (get_package_manager (lit "unknown") st = (Returned (lit "apt"), st)) as Hpm.
  { unfold get_package_manager.
    assert (supported_distros !! lit "unknown" = None) as -> by (vm_compute; reflexivity).
    done. }
  rewrite (bind_returned _ _ _ _ _ Hpm).
  by eexists.
Qed.

(** ** [get_package_manager] *)

Lemma first_existing_probes (installed : str → bool) pms :
  (∀ c w, ∃ rc out err,
     (os_exec [lit "which"; c] None w).1 = Exited rc out err
     ∧ installed c = (rc =? 0)) →
  ∀ st, ∃ st',
    first_existing pms st = (Returned (List.find installed pms), st')
    ∧ trace st' = trace st
                  ++ ((λ c, EvSpawn [lit "which"; c] None) <$> probed installed pms)
    ∧ operations_log st' = operations_log st
    ∧ logger st' = logger st.
Proof.
  intros Hwhich. induction pms as [|pm pms IH]; intros st.
  - exists st. simpl. by rewrite app_nil_r.
  - destruct (Hwhich pm (world st)) as (rc & out & err & Ho & Hi).
    assert (command_exists pm st = (Returned (installed pm), after_probe pm st)) as Hce
      by (by rewrite command_exists_eq, Ho, Hi).
    simpl. rewrite (bind_returned _ _ _ _ _ Hce).
    destruct (installed pm).
    + by eexists.
    + destruct (IH (after_probe pm st)) as (st' & Hrun & Htr & Hlog & Hlogger).
      exists st'. split; [done|]. split; [|done].
      rewrite Htr. simpl. by rewrite <- app_assoc.
Qed.

(** X7.  Where every [which] probe can be spawned and exits, the
    selection returns the first candidate of the distribution that
    [which] finds, and ["apt"] when it finds none or the distribution
    is not in the table. *)
Theorem get_package_manager_first_available (installed : str → bool) d st :
  (∀ c w, ∃ rc out err,
     (os_exec [lit "which"; c] None w).1 = Exited rc out err
     ∧ installed c = (rc =? 0)) →
  ∃ st',
    get_package_manager d st
    = (Returned match supported_distros !! d with
                | Some pms => default (lit "apt") (List.find installed pms)
                | None => lit "apt"
                end, st').
Proof.
  intros Hwhich. unfold get_package_manager.
  destruct (supported_distros !! d) as [pms|]; [|by eexists].
  destruct (first_existing_probes installed pms Hwhich st) as (st' & Hfirst & _).
  exists st'. rewrite (bind_returned _ _ _ _ _ Hfirst).
  by destruct (List.find installed pms).
Qed.

(** X8.  Under the same condition the selection spawns [which] for
    the candidates in order and stops at the first one found: nothing
    after it is probed, nothing else is run, and neither log is
    written. *)
Theorem get_package_manager_probes (installed : str → bool) d pms st :
  (∀ c w, ∃ rc out err,
     (os_exec [lit "which"; c] None w).1 = Exited rc out err
     ∧ installed c = (rc =? 0)) →
  supported_distros !! d = Some pms →
  ∃ st',
    (get_package_manager d st).2 = st'
    ∧ trace st' = trace st
                  ++ ((λ c, EvSpawn [lit "which"; c] None) <$> probed installed pms)
    ∧ operations_log st' = operations_log st
    ∧ logger st' = logger st.
Proof.
  intros Hwhich Hd. unfold get_package_manager. rewrite Hd.
  destruct (first_existing_probes installed pms Hwhich st)
    as (st' & Hfirst & Htr & Hlog & Hlogger).
  exists st'. rewrite (bind_returned _ _ _ _ _ Hfirst).
  by destruct (List.find installed pms).
Qed.

(** ** [run_command] *)

(** X9.  Every call of [run_command], also one whose process cannot
    be started or times out, writes exactly one INFO record, the
    argument tokens joined by spaces, spawns exactly one process with
    the timeout it was given, and leaves [operations_log] alone. *)
Theorem run_command_effects argv timeout st :
  ∃ st',
    (run_command argv timeout st).2 = st'
    ∧ logger st' = logger st
                   ++ [(INFO, lit "Executing command: " ++ join (lit " ") argv)]
    ∧ spawned (trace st') = spawned (trace st) ++ [(argv, Some timeout)]
    ∧ operations_log st' = operations_log st
    ∧ world st' = (os_exec argv (Some timeout) (world st)).2.
Proof.
  rewrite run_command_eq. eexists. split; [done|]. simpl.
  split; [done|]. split; [|done].
  by rewrite spawned_app.
Qed.

(** ** [_execute_operations] *)

Lemma execute_step_full total cb i op results st :
  total ≠ 0 →
  ∃ r st',
    execute_step total cb i op results st = (Returned (results ++ [step_line op r]), st')
    ∧ operations_log st' = operations_log st ++ [step_entry op r]
    ∧ trace st' = trace st ++ step_events (bool_decide (is_Some cb)) total i op r
    ∧ logger st' = logger st ++ step_records op r.
Proof.
  intros Htotal. destruct op as [c d].
  unfold execute_step.
  set (pre := match cb with Some f => _ | None => _ end).
  assert (∃ st1, pre st = (Returned tt, st1)
                 ∧ operations_log st1 = operations_log st
                 ∧ logger st1 = logger st
                 ∧ trace st1 = trace st ++
                     (if bool_decide (is_Some cb)
                      then [EvProgress (percentage (i + 1) total) d] else []))
    as (st1 & Hpre & Hlog1 & Hlogger1 & Htr1).
  { subst pre. destruct cb as [f|].
    - unfold int_truediv. apply Z.eqb_neq in Htotal. rewrite Htotal.
      eexists. split; [reflexivity|]. simpl. done.
    - exists st. split; [done|]. split; [done|]. split; [done|].
      rewrite bool_decide_false; [by rewrite app_nil_r | by intros [? ?]]. }
  rewrite (bind_returned _ _ _ _ _ Hpre).
  rewrite (bind_returned _ _ _ _ _ (run_command_eq c 300 st1)).
  set (o := (os_exec c (Some 300) (world st1)).1).
  destruct (returned_pair o) as [ok out] eqn:Ho. simpl.
  unfold datetime_now_isoformat, operations_log_append, logger_log,
    mbind, M_bind, mret, M_ret; simpl.
  destruct (now_isoformat (os_exec c (Some 300) (world st1)).2) as [ts w2] eqn:Hnow.
  exists (ok, out, ts).
  destruct ok; simpl; eexists; (split; [reflexivity|]); simpl;
    rewrite Hlog1, Htr1, Hlogger1; unfold step_events, step_entry, step_records; simpl;
    (split; [done|]); (split; [by rewrite <- !app_assoc|]); by rewrite <- ?app_assoc.
Qed.

Lemma execute_loop_full total cb ops : ∀ i results st,
  total ≠ 0 →
  ∃ rs st',
    length rs = length ops
    ∧ execute_loop total cb i ops results st
      = (Returned (results ++ zip_with step_line ops rs), st')
    ∧ operations_log st' = operations_log st ++ zip_with step_entry ops rs
    ∧ trace st' = trace st ++ run_events (bool_decide (is_Some cb)) total i ops rs
    ∧ logger st' = logger st ++ concat (zip_with step_records ops rs).
Proof.
  induction ops as [|op ops IH]; intros i results st Htotal.
  - exists [], st. simpl. by rewrite !app_nil_r.
  - destruct (execute_step_full total cb i op results st Htotal)
      as (r & st1 & Hstep & Hlog1 & Htr1 & Hlogger1).
    destruct (IH (i + 1) (results ++ [step_line op r]) st1 Htotal)
      as (rs & st' & Hlen & Hloop & Hlog & Htr & Hlogger).
    exists (r :: rs), st'. simpl.
    split; [by rewrite Hlen|].
    split; [by rewrite (bind_returned _ _ _ _ _ Hstep), Hloop, <- app_assoc|].
    split; [by rewrite Hlog, Hlog1, <- app_assoc|].
    split; [by rewrite Htr, Htr1, <- app_assoc|].
    by rewrite Hlogger, Hlogger1, <- app_assoc.
Qed.

Lemma execute_operations_full ops cb st :
  ∃ rs st',
    length rs = length ops
    ∧ _execute_operations ops cb st
      = (Returned (true, join newline (zip_with step_line ops rs)), st')
    ∧ operations_log st' = operations_log st ++ zip_with step_entry ops rs
    ∧ trace st' = trace st ++ run_events (bool_decide (is_Some cb)) (len ops) 0 ops rs
    ∧ logger st' = logger st ++ concat (zip_with step_records ops rs).
Proof.
  unfold _execute_operations.
  destruct ops as [|op ops].
  - exists [], st. simpl. by rewrite !app_nil_r.
  - assert (len (op :: ops) ≠ 0) as Htotal by (unfold len; simpl; lia).
    destruct (execute_loop_full (len (op :: ops)) cb (op :: ops) 0 [] st Htotal)
      as (rs & st' & Hlen & Hloop & Hlog & Htr & Hlogger).
    exists rs, st'. split; [done|].
    split; [by rewrite (bind_returned _ _ _ _ _ Hloop)|]. done.
Qed.

(** X10.  The [output] of every [LogEntry] a run appends has at most
    203 characters: 200 of the command output and the three of the
    ellipsis. *)
Theorem log_entry_output_bounded ops cb st :
  ∃ st' new,
    (_execute_operations ops cb st).2 = st'
    ∧ operations_log st' = operations_log st ++ new
    ∧ Forall (λ entry, len (output entry) ≤ 203) new.
Proof.
  destruct (execute_operations_full ops cb st) as (rs & st' & Hlen & Hrun & Hlog & _).
  exists st', (zip_with step_entry ops rs).
  split; [by rewrite Hrun|]. split; [done|].
  clear. revert rs. induction ops as [|op ops IH]; intros [|r rs]; simpl; try done.
  constructor; [|apply IH].
  unfold step_entry. cbn [output].
  destruct (Z.ltb_spec 200 (len r.1.2)) as [Hlong|Hshort]; unfold len in *.
  - rewrite length_app, length_take. cbn [length lit]. simpl length. lia.
  - lia.
Qed.

(** X11.  The process log of a run holds, per step and in order, the
    INFO record of the command line and, for a step that failed, an
    ERROR record with the description and the whole output that
    [run_command] returned, not the shortened one of the [LogEntry]. *)
Theorem execute_process_log ops cb st :
  ∃ rs st',
    length rs = length ops
    ∧ (_execute_operations ops cb st).2 = st'
    ∧ ran (trace st')
      = ran (trace st) ++ zip_with (λ op r, (op.1, r.1.1, r.1.2)) ops rs
    ∧ logger st'
      = logger st
        ++ concat (zip_with
                     (λ (op : step) (r : bool * str * str),
                        (INFO, lit "Executing command: " ++ join (lit " ") op.1)
                        :: if r.1.1 then []
                           else [(ERROR, lit "Operation failed: " ++ op.2
                                         ++ lit " - " ++ r.1.2)])
                     ops rs).
Proof.
  destruct (execute_operations_full ops cb st)
    as (rs & st' & Hlen & Hrun & _ & Htr & Hlogger).
  exists rs, st'. split; [done|]. split; [by rewrite Hrun|].
  split; [by rewrite Htr, ran_app, ran_run_events|]. done.
Qed.

(** X12.  The summary agrees with the log: it is one line per appended
    [LogEntry], in order, the check mark before the description of an
    entry that succeeded and the cross before one that failed, joined
    by newlines. *)
Theorem summary_agrees_with_log ops cb st :
  ∃ st' new,
    _execute_operations ops cb st
    = (Returned (true,
                 join newline
                   ((λ entry, (if success entry then check_mark else ballot_x)
                              ++ lit " " ++ description entry) <$> new)), st')
    ∧ operations_log st' = operations_log st ++ new.
Proof.
  destruct (execute_operations_full ops cb st) as (rs & st' & Hlen & Hrun & Hlog & _).
  exists st', (zip_with step_entry ops rs). split; [|done].
  rewrite Hrun.
  assert (zip_with step_line ops rs
          = (λ entry, (if success entry then check_mark else ballot_x)
                      ++ lit " " ++ description entry) <$> zip_with step_entry ops rs)
    as ->; [|done].
  clear. revert rs. induction ops as [|op ops IH]; intros [|r rs]; simpl; try done.
  by rewrite IH.
Qed.

Lemma percentage_in_range a N :
  1 ≤ a → a ≤ N → N ≤ 2 ^ 50 →
  float_lt (float_of_int 0) (percentage a N) = true
  ∧ SFleb (percentage a N) float_100 = true.
Proof.
  intros Ha HaN HN. split.
  - destruct (float_of_int_normal N ltac:(lia)) as (sb & Hsb & Hmb & HfN).
    destruct (percentage_normal a N sb ltac:(lia) Hsb Hmb HfN)
      as (M & κ & sa & _ & _ & _ & -> & _).
    reflexivity.
  - destruct (Z_lt_le_dec a N) as [Hlt|Hge].
    + pose proof (percentage_lt a N N Ha Hlt ltac:(lia) HN) as H.
      rewrite (percentage_full N) in H by lia.
      unfold SFltb in H. unfold SFleb.
      by destruct (SFcompare (percentage a N) float_100) as [[]|].
    + replace a with N by lia. rewrite percentage_full by lia. reflexivity.
Qed.

(** X13.  Every percentage handed to the callback is a positive number
    and at most 100.0, for every run of fewer than [2^50] steps. *)
Theorem progress_within_range ops (f : @callback W) st p :
  len ops ≤ 2 ^ 50 →
  p ∈ (progress_calls (trace (_execute_operations ops (Some f) st).2)).*1 →
  p ∈ (progress_calls (trace st)).*1
  ∨ (float_lt (float_of_int 0) p = true ∧ SFleb p float_100 = true).
Proof.
  intros Hlen.
  destruct (execute_operations_full ops (Some f) st)
    as (rs & st' & Hrs & Hrun & _ & Htr & _).
  rewrite Hrun. cbn [snd]. rewrite Htr, progress_calls_app, fmap_app, elem_of_app.
  intros [Hold|Hnew]; [by left|right].
  change (bool_decide (is_Some (Some f))) with true in Hnew.
  rewrite progress_calls_run_events in Hnew by done.
  apply list_elem_of_fmap in Hnew as ([p' d] & -> & Hin).
  apply list_elem_of_lookup in Hin as [i Hi].
  rewrite list_lookup_imap in Hi.
  apply fmap_Some in Hi as (op & Hop & [= -> _]).
  apply lookup_lt_Some in Hop.
  apply percentage_in_range; unfold len in *; lia.
Qed.

(** ** [get_system_info] *)

Lemma subprocess_getoutput_cases cmd st :
  (∃ out st', subprocess_getoutput cmd st = (Returned out, st')
              ∧ operations_log st' = operations_log st
              ∧ logger st' = logger st ∧ trace st' = trace st)
  ∨ (∃ msg st', subprocess_getoutput cmd st = (Raised (OtherException msg), st')
                ∧ operations_log st' = operations_log st
                ∧ logger st' = logger st ∧ trace st' = trace st).
Proof.
  unfold subprocess_getoutput.
  destruct (getoutput cmd (world st)) as [[out|msg] w].
  - left. by eexists _, _.
  - right. by eexists _, _.
Qed.

(** X14.  [get_system_info] never raises.  Either all six commands
    gave their output and nothing is logged, or one of them raised:
    then every field is ["Unknown"], also the fields already read, and
    one ERROR record is logged. *)
Theorem get_system_info_all_or_nothing st :
  ∃ info st',
    get_system_info st = (Returned info, st')
    ∧ operations_log st' = operations_log st
    ∧ trace st' = trace st
    ∧ (logger st' = logger st
       ∨ ∃ msg,
           info = unknown_info
           ∧ logger st' = logger st ++ [(ERROR, lit "Error getting system info: " ++ msg)]).
Proof.
  unfold get_system_info, try_except, mbind, M_bind.
  repeat match goal with
         | |- context [subprocess_getoutput ?c ?s] =>
             let Hrun := fresh "Hrun" in
             destruct (subprocess_getoutput_cases c s)
               as [(?out & ?st1 & Hrun & ?Hlog & ?Hlogger & ?Htr)
                  |(?msg & ?st1 & Hrun & ?Hlog & ?Hlogger & ?Htr)];
             rewrite Hrun
         end;
    unfold logger_log, mret, M_ret;
    eexists _, _; (split; [reflexivity|]); cbn [world operations_log logger trace];
    (split; [congruence|]); (split; [congruence|]);
    repeat match goal with
           | H : logger _ = logger _ |- _ => rewrite H; clear H
           end;
    first [by left | right; eexists; split; reflexivity].
Qed.

Lemma subprocess_getoutput_frame {A} (π : W → A) cmd st :
  (∀ c w, π (getoutput c w).2 = π w) →
  π (world (subprocess_getoutput cmd st).2) = π (world st).
Proof.
  intros Hframe. unfold subprocess_getoutput.
  specialize (Hframe cmd (world st)).
  by destruct (getoutput cmd (world st)) as [[out|msg] w].
Qed.

Lemma get_system_info_frame {A} (π : W → A) st :
  (∀ c w, π (getoutput c w).2 = π w) →
  π (world (get_system_info st).2) = π (world st).
Proof.
  intros Hframe.
  unfold get_system_info, try_except, mbind, M_bind.
  repeat match goal with
         | |- context [subprocess_getoutput ?c ?s] =>
             let Hf := fresh "Hf" in
             pose proof (subprocess_getoutput_frame π c s Hframe) as Hf;
             destruct (subprocess_getoutput c s) as [[?out|?e] ?st1];
             cbn [snd] in Hf
         end;
    unfold logger_log, mret, M_ret; cbn [snd world]; congruence.
Qed.

(** ** What a run leaves alone *)

Section Frame.

Context {A : Type} (π : W → A).
Context (cb : option (@callback W)).
Hypothesis os_exec_frame : ∀ argv timeout w, π (os_exec argv timeout w).2 = π w.
Hypothesis now_frame : ∀ w, π (now_isoformat w).2 = π w.
Hypothesis callback_frame : ∀ f p s w, cb = Some f → π (f p s w) = π w.




End Frame.

End MoreProperties.

(** ** The window *)

Section WindowProperties.

Context `{os : OS H} `{host : Host H}.

Implicit Types (st : @State (Gui H)).







Lemma info_label_config_eq key text st :
  is_Some (info_labels (world st) !! key) →
  info_label_config key text st
  = (Returned tt,
     set_world (info_labels_set (<[key := text]> (info_labels (world st))) (world st))
       st).
Proof. intros [old Hold]. unfold info_label_config. by rewrite Hold. Qed.

(** X16.  Once [setup_system_info] has made the six labels,
    [update_info] never raises and leaves each label showing the field
    of what [get_system_info] returned, the CPU label with a percent
    sign after it: where the information could not be read, the labels
    show "Unknown" and the CPU label shows "Unknown%". *)
Theorem update_info_sets_labels st :
  (∀ key, key ∈ info_keys → is_Some (info_labels (world st) !! lit key)) →
  ∃ info st1 st',
    get_system_info st = (Returned info, st1)
    ∧ update_info st = (Returned tt, st')
    ∧ info_labels (world st') !! lit "os_name" = Some (os_name info)
    ∧ info_labels (world st') !! lit "kernel_version" = Some (kernel_version info)
    ∧ info_labels (world st') !! lit "uptime" = Some (uptime info)
    ∧ info_labels (world st') !! lit "memory_usage" = Some (memory_usage info)
    ∧ info_labels (world st') !! lit "disk_usage" = Some (disk_usage info)
    ∧ info_labels (world st') !! lit "cpu_usage" = Some (cpu_usage info ++ lit "%")
    ∧ (info = unknown_info →
       info_labels (world st') !! lit "cpu_usage" = Some (lit "Unknown%")).
Proof.
  intros Hkeys.
  destruct (get_system_info_all_or_nothing st) as (info & st1 & Hinfo & _).
  assert (info_labels (world st1) = info_labels (world st)) as Hlabels.
  { replace st1 with (get_system_info st).2 by (by rewrite Hinfo).
    apply (get_system_info_frame info_labels).
    intros c g. simpl. by destruct (getoutput c (machine g)). }
  assert (∀ key, key ∈ info_keys → is_Some (info_labels (world st1) !! lit key))
    as Hkeys1 by (intros key Hkey; rewrite Hlabels; by apply Hkeys).
  assert (∃ st',
            update_info st = (Returned tt, st')
            ∧ info_labels (world st')
              = <[lit "cpu_usage" := cpu_usage info ++ lit "%"]>
                  (<[lit "disk_usage" := disk_usage info]>
                     (<[lit "memory_usage" := memory_usage info]>
                        (<[lit "uptime" := uptime info]>
                           (<[lit "kernel_version" := kernel_version info]>
                              (<[lit "os_name" := os_name info]>
                                 (info_labels (world st1))))))))
    as (st' & Hrun & Hfinal).
  { unfold update_info. rewrite (bind_returned _ _ _ _ _ Hinfo).
    assert (∀ key text st0,
              is_Some (info_labels (world st0) !! lit key) →
              ∀ k : M unit,
                (info_label_config (lit key) text ;; k) st0
                = k (set_world (info_labels_set
                                  (<[lit key := text]> (info_labels (world st0)))
                                  (world st0)) st0)) as Hstep.
    { intros key text st0 Hsome k.
      by rewrite (bind_returned _ _ _ _ _ (info_label_config_eq _ text st0 Hsome)). }
    assert (∀ key, key ∈ info_keys →
              ∀ (labels : gmap str str) key' text,
                is_Some (labels !! lit key) →
                is_Some (<[key' := text]> labels !! lit key)) as Hkeep.
    { intros key _ labels key' text Hsome. rewrite lookup_insert_is_Some.
      destruct (decide (key' = lit key)); [by left|by right]. }
    rewrite Hstep by (apply Hkeys1; unfold info_keys; set_solver).
    rewrite Hstep
      by (cbn [world set_world info_labels info_labels_set];
          repeat apply (Hkeep "kernel_version"); try (unfold info_keys; set_solver);
          apply Hkeys1; unfold info_keys; set_solver).
    rewrite Hstep
      by (cbn [world set_world info_labels info_labels_set];
          repeat apply (Hkeep "uptime"); try (unfold info_keys; set_solver);
          apply Hkeys1; unfold info_keys; set_solver).
    rewrite Hstep
      by (cbn [world set_world info_labels info_labels_set];
          repeat apply (Hkeep "memory_usage"); try (unfold info_keys; set_solver);
          apply Hkeys1; unfold info_keys; set_solver).
    rewrite Hstep
      by (cbn [world set_world info_labels info_labels_set];
          repeat apply (Hkeep "disk_usage"); try (unfold info_keys; set_solver);
          apply Hkeys1; unfold info_keys; set_solver).
    rewrite info_label_config_eq
      by (cbn [world set_world info_labels info_labels_set];
          repeat apply (Hkeep "cpu_usage"); try (unfold info_keys; set_solver);
          apply Hkeys1; unfold info_keys; set_solver).
    eexists. split; [reflexivity|]. reflexivity. }
  exists info, st1, st'. split; [done|]. split; [done|].
  rewrite Hfinal.
  assert (∀ a b : string, a ≠ b → lit a ≠ lit b) as Hne.
  { intros a b Hab Heq. apply Hab. clear Hab. revert b Heq.
    induction a as [|c a IH]; intros [|c' b] Heq; try done.
    unfold lit in Heq. simpl in Heq. injection Heq as Hc Hrest.
    apply (f_equal ascii_of_N) in Hc. rewrite !ascii_N_embedding in Hc.
    subst c'. f_equal. by apply IH. }
  repeat split;
    try (intros ->; cbn [cpu_usage unknown_info]);
    repeat (first [apply lookup_insert_eq
                  | rewrite lookup_insert_ne by (apply Hne; discriminate)]).
Qed.

End WindowProperties.

(** ** More on the operation tables *)

Ltac table_cases pm :=
  unfold update_system_operations, fix_system_operations, fix_system_specific,
    auto_remove_unused_operations, auto_remove_unused_package_cleanup,
    common_fixes, cleanup_operations, boost_system_operations;
  destruct (str_in pm [lit "apt"; lit "apt-get"]);
  [|destruct (str_in pm [lit "dnf"; lit "yum"]);
    [|destruct (bool_decide (pm = lit "pacman"))]];
  cbn [app];
  repeat first [apply Forall_nil_2 | apply Forall_cons_2].

(** X17.  Whatever package manager is selected, every step of the
    four operations runs its program through [sudo], and has a
    description to show. *)
Theorem every_step_runs_through_sudo pm :
  Forall (λ op : step, (∃ prog args, op.1 = lit "sudo" :: prog :: args) ∧ op.2 ≠ [])
    (update_system_operations pm ++ fix_system_operations pm
     ++ auto_remove_unused_operations pm ++ boost_system_operations).
Proof.
  table_cases pm; (split; [by eexists _, _|discriminate]).
Qed.

(** X18.  Whatever package manager is selected, the steps that
    depend on it invoke only apt, dpkg, dnf or pacman: with apt-get
    selected the steps still call apt, with yum selected they call
    dnf, and zypper is never called. *)
Theorem manager_steps_programs pm :
  Forall (λ op : step,
            ∃ prog, op.1 !! 1%nat = Some prog
                    ∧ prog ∈ lit <$> ["apt"; "dpkg"; "dnf"; "pacman"])
    (update_system_operations pm ++ fix_system_specific pm
     ++ auto_remove_unused_package_cleanup pm).
Proof.
  table_cases pm; (eexists; split; [reflexivity|]; set_solver).
Qed.

(** X19.  With a package manager that is none of apt, apt-get, dnf,
    yum and pacman, the fix operation is the four host fixes alone
    and the cleanup operation the five file-system cleanups alone: no
    package command is run, the host commands still are. *)
Theorem unknown_manager_host_steps_only pm :
  pm ∉ [lit "apt"; lit "apt-get"; lit "dnf"; lit "yum"; lit "pacman"] →
  fix_system_operations pm = common_fixes
  ∧ auto_remove_unused_operations pm = cleanup_operations
  ∧ length (fix_system_operations pm) = 4%nat
  ∧ length (auto_remove_unused_operations pm) = 5%nat.
Proof.
  intros Hpm. rewrite !not_elem_of_cons in Hpm.
  destruct Hpm as (Hapt & Haptget & Hdnf & Hyum & Hpacman & _).
  assert (str_in pm [lit "apt"; lit "apt-get"] = false) as H1.
  { apply bool_decide_eq_false. rewrite !not_elem_of_cons.
    repeat split; try done. apply not_elem_of_nil. }
  assert (str_in pm [lit "dnf"; lit "yum"] = false) as H2.
  { apply bool_decide_eq_false. rewrite !not_elem_of_cons.
    repeat split; try done. apply not_elem_of_nil. }
  assert (bool_decide (pm = lit "pacman") = false) as H3
    by (by apply bool_decide_eq_false).
  unfold fix_system_operations, fix_system_specific, auto_remove_unused_operations,
    auto_remove_unused_package_cleanup.
  rewrite H1, H2, H3. done.
Qed.

(** ** On the example hosts, again *)

Lemma detect_distro_first_match_witness :
  (path_exists (Host := ubuntu_host) (lit "/etc/os-release") 0%nat = true
   ∧ read_text (Host := ubuntu_host) (lit "/etc/os-release") 0%nat = inl ubuntu_os_release
   ∧ occurs_in (lit "ubuntu") (ascii_lower ubuntu_os_release)
   ∧ occurs_in (lit "debian") (ascii_lower ubuntu_os_release))
  ∧ detect_distro (host := ubuntu_host) (initial_state 0%nat)
    = (Returned (lit "ubuntu"), initial_state 0%nat).
Proof.
  assert (occurs_in (lit "ubuntu") (ascii_lower ubuntu_os_release)) as Hubuntu
    by (apply str_contains_spec; vm_compute; reflexivity).
  assert (occurs_in (lit "debian") (ascii_lower ubuntu_os_release)) as Hdebian
    by (apply str_contains_spec; vm_compute; reflexivity).
  split; [repeat split; done|].
  apply (detect_distro_first_match (host := ubuntu_host) 0 "ubuntu" ubuntu_os_release
           (initial_state 0%nat) eq_refl eq_refl eq_refl Hubuntu).
  intros j earlier Hj. lia.
Defined.

Lemma detect_distro_unreadable_witness :
  (path_exists (Host := locked_host) (lit "/etc/os-release") 0%nat = true
   ∧ path_exists (Host := locked_host) (lit "/etc/debian_version") 0%nat = true)
  ∧ ∃ st',
      detect_distro (host := locked_host) (initial_state 0%nat)
      = (Returned (lit "unknown"), st')
      ∧ logger st'
        = logger (initial_state 0%nat)
          ++ [(ERROR, lit "Error detecting distribution: "
                      ++ lit "[Errno 13] Permission denied: '/etc/os-release'")]
      ∧ world st' = world (initial_state 0%nat).
Proof.
  split; [by split|].
  exact (detect_distro_unreadable (host := locked_host)
           (lit "[Errno 13] Permission denied: '/etc/os-release'")
           (initial_state 0%nat) eq_refl eq_refl).
Defined.

Lemma detect_distro_fallback_witness :
  path_exists (Host := redhat_host) (lit "/etc/os-release") 0%nat = false
  ∧ detect_distro (host := redhat_host) (initial_state 0%nat)
    = (Returned (lit "fedora"), initial_state 0%nat).
Proof.
  split; [done|].
  destruct (detect_distro_fallback (host := redhat_host) (initial_state 0%nat)
              (or_introl eq_refl)) as (name & Hrun & _ & Hredhat & _).
  rewrite Hrun. by rewrite (Hredhat eq_refl eq_refl).
Defined.

Lemma SystemManager_init_selection_witness :
  let r := SystemManager_init (os := sample) (host := ubuntu_host) (initial_state 0%nat) in
  r.1 = Returned {| distro := lit "ubuntu"; package_manager := lit "apt" |}
  ∧ lit "ubuntu" ∈ (lit <$> release_names) ++ [lit "unknown"]
  ∧ (lit "apt" = lit "apt"
     ∨ ∃ pms, supported_distros !! lit "ubuntu" = Some pms ∧ lit "apt" ∈ pms).
Proof.
  intros r.
  assert (SystemManager_init (os := sample) (host := ubuntu_host) (initial_state 0%nat)
          = (Returned {| distro := lit "ubuntu"; package_manager := lit "apt" |}, r.2))
    as Hrun by (vm_compute; reflexivity).
  split; [vm_compute; reflexivity|].
  exact (SystemManager_init_selection (os := sample) (host := ubuntu_host)
           {| distro := lit "ubuntu"; package_manager := lit "apt" |}
           (initial_state 0%nat) r.2 Hrun).
Defined.

Lemma SystemManager_init_bare_machine_witness :
  ∃ st',
    SystemManager_init (os := no_which) (host := bare_host) (initial_state 0%nat)
    = (Returned {| distro := lit "unknown"; package_manager := lit "apt" |}, st')
    ∧ trace st' = trace (initial_state 0%nat)
    ∧ world st' = world (initial_state 0%nat)
    ∧ logger st' = logger (initial_state 0%nat)
                   ++ [(INFO, lit "Detected distribution: unknown")].
Proof.
  exact (SystemManager_init_bare_machine (os := no_which) (host := bare_host)
           (initial_state 0%nat) eq_refl eq_refl eq_refl eq_refl).
Defined.

Lemma sample_which_runs c (w : nat) :
  ∃ rc out err,
    (os_exec (OS := sample) [lit "which"; c] None w).1 = Exited rc out err
    ∧ sample_installed c = (rc =? 0).
Proof.
  unfold sample_installed, os_exec, sample, sample_exec. cbn [fst].
  rewrite (bool_decide_true (lit "which" = lit "which")) by done.
  destruct (decide (c = lit "pacman")) as [->|Hc].
  - rewrite (bool_decide_true ([lit "pacman"] = [lit "pacman"])) by done.
    rewrite (bool_decide_true (lit "pacman" = lit "pacman")) by done.
    by eexists _, _, _.
  - rewrite (bool_decide_false ([c] = [lit "pacman"])) by congruence.
    rewrite (bool_decide_false (c = lit "pacman")) by done.
    by eexists _, _, _.
Qed.

Lemma get_package_manager_first_available_witness :
  ∃ st',
    get_package_manager (os := sample) (lit "arch") (initial_state 0%nat)
    = (Returned match supported_distros !! lit "arch" with
                | Some pms => default (lit "apt") (List.find sample_installed pms)
                | None => lit "apt"
                end, st').
Proof.
  exact (get_package_manager_first_available (os := sample) sample_installed
           (lit "arch") (initial_state 0%nat) sample_which_runs).
Defined.

Lemma get_package_manager_probes_witness :
  supported_distros !! lit "fedora" = Some [lit "dnf"; lit "yum"]
  ∧ ∃ st',
      (get_package_manager (os := sample) (lit "fedora") (initial_state 0%nat)).2 = st'
      ∧ trace st'
        = trace (initial_state 0%nat)
          ++ ((λ c, EvSpawn [lit "which"; c] None)
                <$> probed sample_installed [lit "dnf"; lit "yum"])
      ∧ operations_log st' = operations_log (initial_state 0%nat)
      ∧ logger st' = logger (initial_state 0%nat).
Proof.
  assert (supported_distros !! lit "fedora" = Some [lit "dnf"; lit "yum"]) as Hd
    by (vm_compute; reflexivity).
  split; [done|].
  exact (get_package_manager_probes (os := sample) sample_installed (lit "fedora")
           [lit "dnf"; lit "yum"] (initial_state 0%nat) sample_which_runs Hd).
Defined.

Lemma progress_within_range_witness :
  let ops := fix_system_operations (lit "pacman") in
  let st' := (_execute_operations (os := sample) ops (Some idle_callback)
                (initial_state 0%nat)).2 in
  (len ops ≤ 2 ^ 50 ∧ float_100 ∈ (progress_calls (trace st')).*1)
  ∧ (float_100 ∈ (progress_calls (trace (initial_state 0%nat))).*1
     ∨ (float_lt (float_of_int 0) float_100 = true ∧ SFleb float_100 float_100 = true)).
Proof.
  intros ops st'.
  assert (len ops ≤ 2 ^ 50) as Hlen by (intros H; vm_compute in H; discriminate).
  assert (float_100 ∈ (progress_calls (trace st')).*1) as Hin.
  { apply list_elem_of_In. vm_compute. tauto. }
  split; [by split|].
  exact (progress_within_range (os := sample) ops idle_callback (initial_state 0%nat)
           float_100 Hlen Hin).
Defined.

Lemma unknown_manager_host_steps_only_witness :
  (lit "zypper" ∉ [lit "apt"; lit "apt-get"; lit "dnf"; lit "yum"; lit "pacman"])
  ∧ fix_system_operations (lit "zypper") = common_fixes
  ∧ auto_remove_unused_operations (lit "zypper") = cleanup_operations
  ∧ length (fix_system_operations (lit "zypper")) = 4%nat
  ∧ length (auto_remove_unused_operations (lit "zypper")) = 5%nat.
Proof.
  assert (lit "zypper" ∉ [lit "apt"; lit "apt-get"; lit "dnf"; lit "yum"; lit "pacman"])
    as H.
  { rewrite !not_elem_of_cons. repeat split; try discriminate. apply not_elem_of_nil. }
  split; [exact H|].
  exact (unknown_manager_host_steps_only (lit "zypper") H).
Defined.

Lemma setup_system_info_labels_keys key :
  key ∈ info_keys → is_Some (setup_system_info_labels !! lit key).
Proof.
  unfold info_keys. rewrite !elem_of_cons.
  intros [->|[->|[->|[->|[->|[->|Hnil]]]]]];
    [by vm_compute; eexists..|by apply not_elem_of_nil in Hnil].
Qed.

Lemma update_info_sets_labels_witness :
  let st := initial_state (initial_gui 0%nat) in
  (∀ key, key ∈ info_keys → is_Some (info_labels (world st) !! lit key))
  ∧ ∃ st',
      update_info (host := locked_host) st = (Returned tt, st')
      ∧ info_labels (world st') !! lit "os_name" = Some (lit "Unknown")
      ∧ info_labels (world st') !! lit "cpu_usage" = Some (lit "Unknown%").
Proof.
  intros st. split; [exact setup_system_info_labels_keys|].
  destruct (update_info_sets_labels (host := locked_host) st
              setup_system_info_labels_keys)
    as (info & st1 & st' & Hinfo & Hrun & Hos & _ & _ & _ & _ & _ & Hcpu).
  assert (info = unknown_info) as Hunknown.
  { assert ((get_system_info (host := gui_host (host := locked_host)) st).1
            = Returned unknown_info)
      as Hval by (vm_compute; reflexivity).
    rewrite Hinfo in Hval. by injection Hval. }
  exists st'. split; [done|]. split; [by rewrite Hos, Hunknown|].
  by apply Hcpu.
Defined.

(** The fix operation for pacman, started from the window on the
    sample host: two of the seven steps fail, and the window ends at
    100 with "System Fix completed". *)
Example run_operation_on_sample :
  let r := run_operation_worker (host := ubuntu_host)
             (fix_system (os := gui_os (os := sample)) (lit "pacman"))
             (lit "System Fix")
             (initial_state (initial_gui 0%nat)) in
  r.1 = Returned tt
  ∧ progress_var (world r.2) = float_100
  ∧ status_label (world r.2) = lit "System Fix completed"
  ∧ success <$> operations_log r.2 = [true; true; true; false; true; false; true]
  ∧ refresh_threads (world r.2) = 1%nat.
Proof. vm_compute. done. Qed.
